(** * The relay server of [server.js]: webhook handlers and their sends

    A shallow embedding of the Express handlers of [server.js]
    ([/tg-webhook], the bot's ['message'] listener, [/resume-ready] and
    [/admin/resend]) and of the JavaScript operations they rely on, followed
    by the properties of the handlers.

    Conventions of the model.
    - JavaScript values are the JSON values a request body can hold, plus
      [undefined].  A number is held as the text JavaScript prints it with.
    - Strings are byte strings holding the UTF-8 encoding of the JavaScript
      string; the literals are the bytes of the source file.
    - The outside world (the Telegram client, axios, [bot.processUpdate]) is a
      script of outcomes: each external call ends as the script says and is
      recorded, with its outcome, among the events of the run.  Console output
      is recorded among the same events.  What a handler has performed before
      an exception stays performed. *)

From Stdlib Require Import String Ascii List ZArith Bool Lia.
Import ListNotations.
Local Open Scope list_scope.
Local Open Scope string_scope.
Set Warnings "-register-all".

(** ** JavaScript values *)

Module JS.

(** [VNum text]: the number that [Number.prototype.toString] prints as
    [text], the shortest decimal that reads back as the same double ("5",
    "-2", "1.5", "1e+21").  Equal numbers have equal texts; 0 and -0 both
    print "0", and nothing the handlers do tells them apart.  JSON has no NaN
    and no infinity. *)
Inductive value : Type :=
| VUndefined
| VNull
| VBool (b : bool)
| VNum (text : string)
| VStr (s : string)
| VArr (items : list value)
| VObj (props : list (string * value)).

(** [!!v]: what [if (v)], [!v], [v || w] and [v ? a : b] test. *)
Definition truthy (v : value) : bool :=
  match v with
  | VUndefined | VNull => false
  | VBool b => b
  | VNum n => negb (n =? "0")
  | VStr s => negb (s =? "")
  | VArr _ | VObj _ => true
  end.

(** [a || b] *)
Definition or (a b : value) : value := if truthy a then a else b.

(** [a === b], for the comparisons the handlers make: a value against a
    primitive.  Arrays and objects are compared by identity in JavaScript and
    are never identical to a literal. *)
Definition strict_eq (a b : value) : bool :=
  match a, b with
  | VUndefined, VUndefined | VNull, VNull => true
  | VBool x, VBool y => Bool.eqb x y
  | VNum x, VNum y => (x =? y)
  | VStr x, VStr y => (x =? y)
  | _, _ => false
  end.

(** [o.k] on a value that is neither [undefined] nor [null]: the own property
    of an object, [undefined] elsewhere (the handlers read no inherited or
    array property). *)
Fixpoint lookup (k : string) (props : list (string * value)) : value :=
  match props with
  | [] => VUndefined
  | (k', v) :: rest => if k' =? k then v else lookup k rest
  end.

Definition field (k : string) (o : value) : value :=
  match o with
  | VObj props => lookup k props
  | _ => VUndefined
  end.

(** [o.hasOwnProperty(k)] *)
Definition has_own (k : string) (props : list (string * value)) : bool :=
  existsb (fun kv => fst kv =? k) props.

(** [`${v}`]: the string a template literal makes of a value, [None] where
    it throws a [TypeError].  An object parsed from JSON prints as
    "[object Object]" through [Object.prototype.toString], unless it has a
    [toString] property of its own: that property is not a function, and
    [valueOf] gives back the object, so the conversion throws.  An array
    prints through [join], which converts each element the same way and takes
    [undefined] and [null] for the empty string. *)
Fixpoint to_string (v : value) : option string :=
  match v with
  | VUndefined => Some "undefined"
  | VNull => Some "null"
  | VBool true => Some "true"
  | VBool false => Some "false"
  | VNum n => Some n
  | VStr s => Some s
  | VArr items =>
      (fix join (l : list value) : option string :=
         match l with
         | [] => Some ""
         | x :: rest =>
             match match x with
                   | VUndefined | VNull => Some ""
                   | _ => to_string x
                   end with
             | None => None
             | Some sx =>
                 match rest with
                 | [] => Some sx
                 | _ :: _ =>
                     match join rest with
                     | Some sr => Some (sx ++ "," ++ sr)
                     | None => None
                     end
                 end
             end
         end) items
  | VObj props =>
      if has_own "toString" props then None else Some "[object Object]"
  end.

End JS.
Import JS.

(** ** Strings: [trim], [startsWith], [replace] *)

Module Str.

(** The UTF-8 encodings of the code points [String.prototype.trim] strips:
    WhiteSpace (TAB, VT, FF, SP, NBSP, ZWNBSP and category Zs) and
    LineTerminator (LF, CR, LS, PS). *)
Definition enc (l : list nat) : string :=
  string_of_list_ascii (map ascii_of_nat l).

Definition white_space : list string :=
  map enc
    [ [9]; [10]; [11]; [12]; [13]; [32];
      [194; 160];
      [225; 154; 128];
      [226; 128; 128]; [226; 128; 129]; [226; 128; 130]; [226; 128; 131];
      [226; 128; 132]; [226; 128; 133]; [226; 128; 134]; [226; 128; 135];
      [226; 128; 136]; [226; 128; 137]; [226; 128; 138];
      [226; 128; 168]; [226; 128; 169]; [226; 128; 175];
      [226; 129; 159];
      [227; 128; 128];
      [239; 187; 191] ].

Fixpoint skip (n : nat) (s : string) : string :=
  match n, s with
  | O, _ => s
  | S n', String _ s' => skip n' s'
  | S _, EmptyString => EmptyString
  end.

(** [s.startsWith(p)] *)
Definition startsWith (p s : string) : bool := prefix p s.

(** The length of the white space [s] starts with, [None] if it starts with
    none. *)
Definition leading_space (s : string) : option nat :=
  option_map String.length (find (fun ws => startsWith ws s) white_space).

(** [trimStart]; the fuel is the length of the string, each step removes at
    least one byte. *)
Fixpoint trimStart_fuel (fuel : nat) (s : string) : string :=
  match fuel with
  | O => s
  | S fuel' =>
      match leading_space s with
      | Some n => trimStart_fuel fuel' (skip n s)
      | None => s
      end
  end.

Definition trimStart (s : string) : string :=
  trimStart_fuel (String.length s) s.

Definition rev (s : string) : string :=
  string_of_list_ascii (List.rev (list_ascii_of_string s)).

Definition trailing_space (r : string) : option nat :=
  option_map String.length
    (find (fun ws => startsWith (rev ws) r) white_space).

Fixpoint trimEnd_fuel (fuel : nat) (r : string) : string :=
  match fuel with
  | O => r
  | S fuel' =>
      match trailing_space r with
      | Some n => trimEnd_fuel fuel' (skip n r)
      | None => r
      end
  end.

(** [trimEnd], on the reversed string. *)
Definition trimEnd (s : string) : string :=
  rev (trimEnd_fuel (String.length s) (rev s)).

(** [s.trim()] *)
Definition trim (s : string) : string := trimEnd (trimStart s).

(** [s.replace(pat, rep)] with a string pattern: the first occurrence only. *)
Fixpoint replace (pat rep s : string) : string :=
  if startsWith pat s then rep ++ skip (String.length pat) s
  else match s with
       | EmptyString => s
       | String c s' => String c (replace pat rep s')
       end.

(** [s.replace(/\/$/, '')]: one trailing slash removed. *)
Definition strip_trailing_slash (s : string) : string :=
  match rev s with
  | String "/" r => rev r
  | _ => s
  end.

End Str.

(** ** The outside world and the effects of a handler *)

(** The external calls: [bot.sendMessage(chatId, text)],
    [bot.sendDocument(chatId, doc, {caption})], [axios.post(url, payload,
    {headers: {'x-api-key': apiKey}, timeout})] and
    [bot.processUpdate(update)]. *)
Inductive call : Type :=
| SendMessage (chatId : value) (text : string)
| SendDocument (chatId : value) (doc : value) (caption : value)
| AxiosPost (url : string) (payload : value) (apiKey : string) (timeout : Z)
| ProcessUpdate (update : value).

(** How an external call ends: its promise resolves with a value (a
    synchronous call returns it), or rejects (throws) with an error. *)
Inductive outcome : Type :=
| Resolved (v : value)
| Rejected (err : value).

Inductive level : Type := Log | Warn | Error.

(** What a handler does that can be observed: its external calls, each with
    its outcome, what it writes to the console, and a rejection of a detached
    task that nothing handles. *)
Inductive event : Type :=
| Call (c : call) (o : outcome)
| Console (l : level) (args : list value)
| Unhandled (err : value).

(** The outside world: the outcome of the [i]-th external call made since the
    server started, for every [i]. *)
Definition script : Type := nat -> outcome.

Inductive result (A : Type) : Type :=
| Ok (a : A)
| Throw (err : value).
Arguments Ok {A} a.
Arguments Throw {A} err.

(** A run of a computation: how it ended, the events it produced, in order,
    and the number of external calls made once it is over. *)
Record run (A : Type) : Type := mkRun {
  answer : result A;
  events : list event;
  asked : nat
}.
Arguments mkRun {A} answer events asked.
Arguments answer {A} r.
Arguments events {A} r.
Arguments asked {A} r.

(** A computation of an [async] function, run to its end against a script,
    from the [n]-th external call on. *)
Definition M (A : Type) : Type := script -> nat -> run A.

Definition ret {A} (a : A) : M A := fun _ n => mkRun (Ok a) [] n.

Definition throw {A} (e : value) : M A := fun _ n => mkRun (Throw e) [] n.

(** The run [r], coming after the events [es]. *)
Definition after {B} (es : list event) (r : run B) : run B :=
  match r with
  | mkRun b es' n => mkRun b (es ++ es')%list n
  end.

Definition bind {A B} (m : M A) (k : A -> M B) : M B :=
  fun s n =>
    match m s n with
    | mkRun (Ok a) es n' => after es (k a s n')
    | mkRun (Throw e) es n' => mkRun (Throw e) es n'
    end.

(** [try { body } catch (err) { handler }] *)
Definition try_catch {A} (body : M A) (handler : value -> M A) : M A :=
  fun s n =>
    match body s n with
    | mkRun (Ok a) es n' => mkRun (Ok a) es n'
    | mkRun (Throw e) es n' => after es (handler e s n')
    end.

Declare Scope js_scope.
Delimit Scope js_scope with js.
Notation "x <- m ;; k" := (bind m (fun x => k))
  (at level 61, m at next level, right associativity) : js_scope.
Notation "m ;; k" := (bind m (fun _ => k))
  (at level 61, right associativity) : js_scope.
Local Open Scope js_scope.

(** An external call, awaited (or synchronous): it ends as the script says. *)
Definition perform (c : call) : M value :=
  fun s n =>
    match s n with
    | Resolved v => mkRun (Ok v) [Call c (Resolved v)] (S n)
    | Rejected e => mkRun (Throw e) [Call c (Rejected e)] (S n)
    end.

Definition console (l : level) (args : list value) : M unit :=
  fun _ n => mkRun (Ok tt) [Console l args] n.

(** [(async () => { body })()] whose promise is dropped: what [body] throws
    reaches no [catch] of the caller.  The task is run to its end where it is
    started; the caller has nothing left to do after it in [server.js]. *)
Definition detached (body : M unit) : M unit :=
  fun s n =>
    match body s n with
    | mkRun (Ok _) es n' => mkRun (Ok tt) es n'
    | mkRun (Throw e) es n' => mkRun (Ok tt) (es ++ [Unhandled e])%list n'
    end.

(** The error object the engine throws.  Its message, a text of the engine,
    is not modelled. *)
Definition TypeError : value := VObj [("name", VStr "TypeError")].

(** A template literal in a handler: its text, or the [TypeError] of the
    conversion. *)
Definition literal (text : option string) : M string :=
  match text with
  | Some t => ret t
  | None => throw TypeError
  end.

(** [o.k]: throws on [undefined] and [null]. *)
Definition member (o : value) (k : string) : M value :=
  match o with
  | VUndefined | VNull => throw TypeError
  | _ => ret (field k o)
  end.

(** ** Requests, responses, configuration *)

(** [headers]: the request's headers, names in lower case;
    [body]: [req.body]. *)
Record request : Type := mkRequest {
  headers : list (string * string);
  body : value;
  ip : string
}.

(** [req.get(name)] *)
Fixpoint assoc (k : string) (l : list (string * string)) : option string :=
  match l with
  | [] => None
  | (k', v) :: rest => if k' =? k then Some v else assoc k rest
  end.

Definition req_get (req : request) (name : string) : option string :=
  assoc name (headers req).

(** [req.get(name) || ''] *)
Definition header_or_empty (req : request) (name : string) : string :=
  match req_get req name with
  | Some s => s
  | None => ""
  end.

(** [res.sendStatus(code)] is a response without a JSON body,
    [res.status(code).json(v)] one with it, [res.json(v)] is status 200. *)
Record response : Type := mkResponse {
  statusCode : Z;
  json : option value
}.

Definition sendStatus (code : Z) : response := mkResponse code None.
Definition status_json (code : Z) (v : value) : response := mkResponse code (Some v).
Definition res_json (v : value) : response := mkResponse 200 (Some v).

Definition ok_true : value := VObj [("ok", VBool true)].
Definition error_body (msg : string) : value := VObj [("error", VStr msg)].

(** The constants read from the environment at start-up. *)
Record config : Type := mkConfig {
  TELEGRAM_WEBHOOK_SECRET : string;
  BACKEND_URL : string;
  BACKEND_SECRET : string
}.

(** ** The texts sent to the chat *)

Definition PROMPT_TEXT : string :=
  "Please send the Job Description text (paste JD or use /apply <JD>).".
Definition USAGE_TEXT : string :=
  "Usage: /apply <paste the job description here>".
Definition ACK_TEXT : string :=
  "âœ… Received the Job Description. Generating an ATS-optimized resume â€” this may take ~20â€“40 seconds. I will send it here once ready.".
Definition SUBMIT_FAILED_TEXT : string :=
  "âš ï¸ Failed to submit the job to the backend. Please try again later.".
Definition generation_failed_text (job : string) : string :=
  "âŒ Resume generation failed for job " ++ job
  ++ ". Please try again or contact support.".
Definition NO_FILE_TEXT : string :=
  "âš ï¸ Backend reported completion but did not provide a file.".
Definition hr_contact_text (hr : string) : string :=
  "ðŸ”Ž HR Contact found: " ++ hr.
Definition job_id_text (job : string) : string :=
  "Job ID: " ++ job.
Definition DELIVERY_FAILED_TEXT : string :=
  "âš ï¸ Failed to send generated resume to your chat. The team has been notified.".
Definition resume_caption (hr : string) : string :=
  "Your resume (HR Contact: " ++ hr ++ ")".
Definition DEFAULT_CAPTION : string := "Your resume (generated).".

(** The texts of the template literals of [/resume-ready], by the values they
    print: lines 260, 269 and 274, 284, 289. *)
Definition failure_text (jobId : value) : option string :=
  option_map generation_failed_text (to_string (or jobId (VStr ""))).

Definition caption_text (hrEmail : value) : option string :=
  if truthy hrEmail then option_map resume_caption (to_string hrEmail)
  else Some DEFAULT_CAPTION.

Definition hr_text (hrEmail : value) : option string :=
  option_map hr_contact_text (to_string hrEmail).

Definition job_text (jobId : value) : option string :=
  option_map job_id_text (to_string jobId).

(** ** The handlers *)

(** [`${BACKEND_URL.replace(/\/$/, '')}/apply`] *)
Definition apply_url (cfg : config) : string :=
  Str.strip_trailing_slash (BACKEND_URL cfg) ++ "/apply".

(** The payload of the POST to [/apply], lines 177-184. *)
Definition job_submission (chatId uid username : value) (jd : string) : value :=
  VObj [("userId", uid); ("jd", VStr jd);
        ("meta", VObj [("username", username); ("chatId", chatId)])].

Section Server.

Variable cfg : config.

(** [app.post('/tg-webhook', ...)], lines 111-131. *)
Definition tg_webhook (req : request) : M response :=
  try_catch
    (let process :=
       perform (ProcessUpdate (body req)) ;;
       ret (sendStatus 200) in
     if negb (TELEGRAM_WEBHOOK_SECRET cfg =? "") then
       let secretHeader := header_or_empty req "x-telegram-bot-api-secret-token" in
       if (secretHeader =? "") || negb (secretHeader =? TELEGRAM_WEBHOOK_SECRET cfg)
       then
         console Warn [VStr "Invalid telegram webhook secret token from"; VStr (ip req)] ;;
         ret (sendStatus 401)
       else process
     else process)
    (fun err =>
       console Error [VStr "Error processing /tg-webhook:"; err] ;;
       ret (sendStatus 500)).

(** [v.trim()]: a method of strings only. *)
Definition call_trim (v : value) : M string :=
  match v with
  | VStr s => ret (Str.trim s)
  | _ => throw TypeError
  end.

(** The detached task of the message listener, lines 175-211. *)
Definition submit_job (chatId userId username : value) (jdText : string) : M unit :=
  try_catch
    (let payload := job_submission chatId userId username jdText in
     resp <- perform (AxiosPost (apply_url cfg) payload (BACKEND_SECRET cfg) 10000) ;;
     if truthy resp && truthy (field "data" resp)
        && truthy (field "jobId" (field "data" resp))
     then
       console Log [VStr "Backend accepted job"; field "jobId" (field "data" resp);
                    VStr "for user"; userId]
     else
       data <- member resp "data" ;;
       console Log [VStr "Backend response (no jobId) for user"; userId; data])
    (fun err =>
       message <- member err "message" ;;
       console Error [VStr "Error sending JD to backend:"; or message err] ;;
       try_catch
         (perform (SendMessage chatId SUBMIT_FAILED_TEXT) ;; ret tt)
         (fun _ => ret tt)).

(** [bot.on('message', async (msg) => ...)], lines 144-216. *)
Definition on_message (msg : value) : M unit :=
  try_catch
    (if negb (truthy msg) || negb (truthy (field "from" msg))
        || negb (truthy (field "chat" msg))
     then ret tt
     else
       let chatId := field "id" (field "chat" msg) in
       let userId := field "id" (field "from" msg) in
       let username := or (field "username" (field "from" msg)) (VStr "") in
       text <- call_trim (or (field "text" msg) (VStr "")) ;;
       if text =? "" then
         perform (SendMessage chatId PROMPT_TEXT) ;;
         ret tt
       else
         let acknowledge_and_submit (jdText : string) :=
           perform (SendMessage chatId ACK_TEXT) ;;
           detached (submit_job chatId userId username jdText) in
         if Str.startsWith "/apply" text then
           let jdText := Str.trim (Str.replace "/apply" "" text) in
           if jdText =? "" then
             perform (SendMessage chatId USAGE_TEXT) ;;
             ret tt
           else acknowledge_and_submit jdText
         else acknowledge_and_submit text)
    (fun err => console Error [VStr "Error in message handler:"; err]).

(** The constants of [/resume-ready] read from the body, lines 245-250. *)
Record notice : Type := mkNotice {
  userId : value;
  tgPdfId : value;
  pdfUrl : value;
  hrEmail : value;
  status : value;
  jobId : value
}.

Definition read_notice (b : value) : notice :=
  {| userId := field "userId" b;
     tgPdfId :=
       if truthy (field "tg_pdf_id" b) || strict_eq (field "tg_pdf_id" b) (VNum "0")
       then field "tg_pdf_id" b else VNull;
     pdfUrl := or (field "pdf_url" b) VNull;
     hrEmail := or (or (field "hrEmail" b) (field "hr_contact" b)) VNull;
     status := or (field "status" b) (VStr "completed");
     jobId := or (field "jobId" b) VNull |}.

(** The inner [try] block of [/resume-ready], lines 266-292. *)
Definition deliver (b : value) (nt : notice) : M response :=
  (if truthy (tgPdfId nt) then
     caption <- literal (caption_text (hrEmail nt)) ;;
     perform (SendDocument (userId nt) (tgPdfId nt) (VStr caption)) ;;
     ret tt
   else if truthy (pdfUrl nt) then
     caption <- literal (caption_text (hrEmail nt)) ;;
     perform (SendDocument (userId nt) (pdfUrl nt) (VStr caption)) ;;
     ret tt
   else
     perform (SendMessage (userId nt) NO_FILE_TEXT) ;;
     console Warn [VStr "resume-ready missing file for user"; userId nt;
                   VStr "payload:"; b]) ;;
  (if truthy (hrEmail nt) then
     text <- literal (hr_text (hrEmail nt)) ;;
     perform (SendMessage (userId nt) text) ;;
     ret tt
   else ret tt) ;;
  (if truthy (jobId nt) then
     text <- literal (job_text (jobId nt)) ;;
     perform (SendMessage (userId nt) text) ;;
     ret tt
   else ret tt) ;;
  ret (res_json ok_true).

(** Its [catch] block, lines 293-301. *)
Definition delivery_failed (nt : notice) (err : value) : M response :=
  console Error [VStr "Error sending document to user"; userId nt; err] ;;
  try_catch
    (perform (SendMessage (userId nt) DELIVERY_FAILED_TEXT) ;; ret tt)
    (fun _ => ret tt) ;;
  ret (status_json 500 (error_body "failed to deliver resume")).

(** [app.post('/resume-ready', ...)], lines 236-307. *)
Definition resume_ready (req : request) : M response :=
  try_catch
    (let key := header_or_empty req "x-api-key" in
     if (key =? "") || negb (key =? BACKEND_SECRET cfg) then
       console Warn [VStr "Unauthorized resume-ready call from"; VStr (ip req)] ;;
       ret (sendStatus 403)
     else
       let b := or (body req) (VObj []) in
       let nt := read_notice b in
       if negb (truthy (userId nt)) then
         console Warn [VStr "resume-ready missing userId"] ;;
         ret (status_json 400 (error_body "missing userId"))
       else if negb (strict_eq (status nt) (VStr "completed")) then
         text <- literal (failure_text (jobId nt)) ;;
         perform (SendMessage (userId nt) text) ;;
         ret (res_json ok_true)
       else
         try_catch (deliver b nt) (delivery_failed nt))
    (fun err =>
       console Error [VStr "Error in /resume-ready:"; err] ;;
       ret (status_json 500 (error_body "internal error"))).

(** [app.post('/admin/resend', ...)], lines 312-333. *)
Definition admin_resend (req : request) : M response :=
  let key := header_or_empty req "x-api-key" in
  if (key =? "") || negb (key =? BACKEND_SECRET cfg) then ret (sendStatus 403)
  else
    let b := or (body req) (VObj []) in
    let userId := field "userId" b in
    let tgPdfId := field "tgPdfId" b in
    let pdfUrl := field "pdfUrl" b in
    let caption := field "caption" b in
    if negb (truthy userId) then
      ret (status_json 400 (error_body "missing userId"))
    else
      try_catch
        (if truthy tgPdfId then
           perform (SendDocument userId tgPdfId (or caption (VStr "Resent resume"))) ;;
           ret (res_json ok_true)
         else if truthy pdfUrl then
           perform (SendDocument userId pdfUrl (or caption (VStr "Resent resume"))) ;;
           ret (res_json ok_true)
         else ret (status_json 400 (error_body "no file provided")))
        (fun err =>
           console Error [VStr "admin resend error"; err] ;;
           ret (status_json 500 (error_body "failed"))).

End Server.

(** ** Observations on a run *)

(** The external calls among the events, in order. *)
Fixpoint calls (t : list event) : list call :=
  match t with
  | [] => []
  | Call c _ :: t' => c :: calls t'
  | _ :: t' => calls t'
  end.

Definition is_document (c : call) : bool :=
  match c with
  | SendDocument _ _ _ => true
  | _ => false
  end.

Definition is_backend_call (c : call) : bool :=
  match c with
  | AxiosPost _ _ _ _ => true
  | _ => false
  end.

Definition is_message (text : string) (c : call) : bool :=
  match c with
  | SendMessage _ t => t =? text
  | _ => false
  end.

(** The console lines of a level among the events. *)
Fixpoint logged (l : level) (t : list event) : list (list value) :=
  match t with
  | [] => []
  | Console l' args :: t' =>
      match l, l' with
      | Log, Log | Warn, Warn | Error, Error => args :: logged l t'
      | _, _ => logged l t'
      end
  | _ :: t' => logged l t'
  end.

(** The [k] external calls from the [n]-th on resolve. *)
Definition resolves (s : script) (n k : nat) : Prop :=
  forall i, (i < k)%nat -> exists v, s (i + n)%nat = Resolved v.

Definition contains (sub s : string) : Prop :=
  exists pre post, s = pre ++ sub ++ post.

(** The request carries the backend secret, and the server has started: it
    exits at start-up on an empty [BACKEND_SECRET] (lines 66-69). *)
Definition valid_key (cfg : config) (req : request) : Prop :=
  req_get req "x-api-key" = Some (BACKEND_SECRET cfg) /\ BACKEND_SECRET cfg <> "".

(** The job description the message listener extracts from a text,
    lines 151-167. *)
Definition job_description (text : string) : string :=
  let t := Str.trim text in
  if Str.startsWith "/apply" t then Str.trim (Str.replace "/apply" "" t) else t.

(** The events hold exactly one send of the acknowledgement to [chatId], and
    no call to the backend comes before it. *)
Definition acknowledged_before_submit (chatId : value) (t : list event) : Prop :=
  exists pre o post,
    t = (pre ++ Call (SendMessage chatId ACK_TEXT) o :: post)%list
    /\ filter (is_message ACK_TEXT) (calls pre) = []
    /\ filter (is_message ACK_TEXT) (calls post) = []
    /\ filter is_backend_call (calls pre) = [].

(** ** Sample configuration, requests and scripts *)

Definition cfg0 : config :=
  {| TELEGRAM_WEBHOOK_SECRET := "hook-secret";
     BACKEND_URL := "https://backend.example.com/";
     BACKEND_SECRET := "s3cret" |}.

Definition cfg_open : config :=
  {| TELEGRAM_WEBHOOK_SECRET := "";
     BACKEND_URL := "https://backend.example.com";
     BACKEND_SECRET := "s3cret" |}.

Definition post (key : option string) (b : value) : request :=
  {| headers := match key with
                | Some k => [("content-type", "application/json"); ("x-api-key", k)]
                | None => [("content-type", "application/json")]
                end;
     body := b;
     ip := "10.0.0.7" |}.

Definition all_fine : script := fun _ => Resolved (VObj []).

Definition fails_at (k : nat) : script :=
  fun i => if (i =? k)%nat then Rejected (VObj [("message", VStr "ETELEGRAM")])
           else Resolved (VObj []).

Definition completed_notice : value :=
  VObj [("userId", VNum "532287234"); ("status", VStr "completed");
        ("tg_pdf_id", VStr "X"); ("hrEmail", VStr "h@x.com");
        ("jobId", VStr "J1")].

Definition chat_message (text : string) : value :=
  VObj [("message_id", VNum "1");
        ("from", VObj [("id", VNum "5"); ("username", VStr "ann")]);
        ("chat", VObj [("id", VNum "7")]);
        ("text", VStr text)].


Definition bare_notice : value :=
  VObj [("userId", VNum "5"); ("status", VStr "completed"); ("hr_contact", VStr "hr@x.com")].

Definition zero_id_notice : value :=
  VObj [("userId", VNum "5"); ("tg_pdf_id", VNum "0");
        ("pdf_url", VStr "https://files.example.com/r.pdf")].

Definition false_status_notice : value :=
  VObj [("userId", VNum "5"); ("status", VBool false); ("jobId", VStr "J2")].

Definition failed_notice : value :=
  VObj [("userId", VNum "5"); ("status", VStr "failed"); ("jobId", VStr "J2")].

Definition resend_request : value :=
  VObj [("userId", VNum "5"); ("tgPdfId", VStr "FILE1");
        ("pdfUrl", VStr "https://files.example.com/r.pdf")].

(** A value no template literal can print. *)
Definition unprintable : value := VObj [("toString", VNum "1")].

Definition unprintable_contact_notice : value :=
  VObj [("userId", VNum "532287234"); ("status", VStr "completed");
        ("tg_pdf_id", VStr "X"); ("hrEmail", unprintable);
        ("jobId", VStr "J1")].


Definition unprintable_job_notice : value :=
  VObj [("userId", VNum "5"); ("status", VStr "failed"); ("jobId", unprintable)].

(** ** Start-up: the environment and the webhook registration *)

(** [process.env], once [dotenv] has loaded the file. *)
Definition env : Type := string -> option string.

(** A variable that passes [if (!X)]: set, and not the empty string. *)
Definition nonempty (o : option string) : option string :=
  match o with
  | Some s => if s =? "" then None else Some s
  | None => None
  end.

(** The constants of lines 47-52 the handlers do not read, and those they
    read. *)
Record settings : Type := mkSettings {
  TELEGRAM_BOT_TOKEN : string;
  PUBLIC_URL : string;
  PORT : value;
  relay : config
}.

(** How lines 47-69 end: [console.error(line); process.exit(code)], or the
    constants the server goes on with. *)
Inductive boot : Type :=
| Exit (code : Z) (line : string)
| Started (st : settings).

Definition startup (e : env) : boot :=
  match nonempty (e "TELEGRAM_BOT_TOKEN") with
  | None => Exit 1 "Missing TELEGRAM_BOT_TOKEN in env."
  | Some token =>
  match nonempty (e "PUBLIC_URL") with
  | None => Exit 1 "Missing PUBLIC_URL in env (public HTTPS URL for webhook)."
  | Some public =>
  match nonempty (e "BACKEND_URL") with
  | None => Exit 1 "Missing BACKEND_URL in env (resume backend endpoint)."
  | Some backend =>
  match nonempty (e "BACKEND_SECRET") with
  | None =>
      Exit 1 "Missing BACKEND_SECRET in env (shared secret between backend and bot)."
  | Some secret =>
      Started
        {| TELEGRAM_BOT_TOKEN := token;
           PUBLIC_URL := public;
           PORT := match nonempty (e "PORT") with
                   | Some p => VStr p
                   | None => VNum "3000"
                   end;
           relay := {| TELEGRAM_WEBHOOK_SECRET :=
                         match nonempty (e "TELEGRAM_WEBHOOK_SECRET") with
                         | Some s => s
                         | None => ""
                         end;
                       BACKEND_URL := backend;
                       BACKEND_SECRET := secret |} |}
  end end end end.

(** [URLSearchParams.prototype.toString]: the application/x-www-form-urlencoded
    serializer.  Letters, digits and [* - . _] stay, a space becomes [+], any
    other byte becomes [%] and two upper-case hexadecimal digits. *)
Definition form_keeps (n : nat) : bool :=
  (((48 <=? n) && (n <=? 57)) || ((65 <=? n) && (n <=? 90))
   || ((97 <=? n) && (n <=? 122))
   || (n =? 42) || (n =? 45) || (n =? 46) || (n =? 95))%nat.

Definition hex_digit (d : nat) : ascii :=
  ascii_of_nat (if d <? 10 then 48 + d else 55 + d)%nat.

Definition form_byte (c : ascii) : string :=
  let n := nat_of_ascii c in
  if (n =? 32)%nat then "+"
  else if form_keeps n then String c ""
  else String "%" (String (hex_digit (n / 16)) (String (hex_digit (n mod 16)) "")).

Fixpoint urlencode (s : string) : string :=
  match s with
  | EmptyString => ""
  | String c s' => form_byte c ++ urlencode s'
  end.

Fixpoint search_params (params : list (string * string)) : string :=
  match params with
  | [] => ""
  | (k, v) :: rest =>
      urlencode k ++ "=" ++ urlencode v ++
      match rest with
      | [] => ""
      | _ :: _ => "&" ++ search_params rest
      end
  end.

(** [webhookUrl] and [url] of [ensureWebhook], lines 77-84. *)
Definition webhookUrl (st : settings) : string :=
  Str.strip_trailing_slash (PUBLIC_URL st) ++ "/tg-webhook".

Definition webhook_params (st : settings) : list (string * string) :=
  ("url", webhookUrl st) ::
  (if negb (TELEGRAM_WEBHOOK_SECRET (relay st) =? "")
   then [("secret_token", TELEGRAM_WEBHOOK_SECRET (relay st))]
   else [])%list.

Definition setWebhook_url (st : settings) : string :=
  "https://api.telegram.org/bot" ++ TELEGRAM_BOT_TOKEN st ++ "/setWebhook"
  ++ "?" ++ search_params (webhook_params st).

(** What [ensureWebhook] does that can be observed: its [axios.get], with the
    outcome, and its console lines. *)
Inductive boot_event : Type :=
| Get (url : string) (o : outcome)
| BootConsole (l : level) (args : list value).

(** [ensureWebhook], lines 75-95, against the outcome of its one request.
    Reading [res.data] off [undefined] or [null] throws inside the [try]; the
    text of that [TypeError]'s message is not modelled. *)
Definition ensureWebhook (st : settings) (o : outcome) : result unit * list boot_event :=
  let catch (err : value) : result unit * list boot_event :=
    match err with
    | VUndefined | VNull => (Throw TypeError, [Get (setWebhook_url st) o])
    | _ =>
        (Ok tt,
         [Get (setWebhook_url st) o;
          BootConsole Error [VStr "Failed to set webhook automatically:";
                             or (field "message" err) err]])
    end in
  match o with
  | Resolved res =>
      match res with
      | VUndefined | VNull => catch TypeError
      | _ =>
          if truthy (field "data" res) && truthy (field "ok" (field "data" res))
          then (Ok tt,
                [Get (setWebhook_url st) o;
                 BootConsole Log [VStr "Webhook registered:"; VStr (webhookUrl st)]])
          else (Ok tt,
                [Get (setWebhook_url st) o;
                 BootConsole Warn [VStr "Webhook registration response:";
                                   field "data" res]])
      end
  | Rejected err => catch err
  end.

(** ** Further observations *)

(** A send to the chat [chatId]. *)
Definition sent_to (chatId : value) (c : call) : Prop :=
  match c with
  | SendMessage to _ | SendDocument to _ _ => to = chatId
  | _ => False
  end.

(** The one answer a run gave is [resp]. *)
Definition answered {A} (r : run A) (a : A) : Prop := answer r = Ok a.

(** A rejection carries an error value: never [undefined] or [null]. *)
Definition is_nullish (v : value) : bool :=
  match v with
  | VUndefined | VNull => true
  | _ => false
  end.

Definition rejects_with_errors (s : script) : Prop :=
  forall i e, s i = Rejected e -> is_nullish e = false.

Fixpoint unhandled (t : list event) : list value :=
  match t with
  | [] => []
  | Unhandled e :: t' => e :: unhandled t'
  | _ :: t' => unhandled t'
  end.

(** A string made of white space only. *)
Fixpoint concat_strings (l : list string) : string :=
  match l with
  | [] => ""
  | x :: rest => x ++ concat_strings rest
  end.

Definition all_space (s : string) : Prop :=
  exists l, Forall (fun w => In w Str.white_space) l /\ s = concat_strings l.




(** The number of sends of a completed notice that has no document: the
    apology, the HR contact if there is one, the job id if there is one. *)
Definition sends_without_document (nt : notice) : nat :=
  1 + (if truthy (hrEmail nt) then 1 else 0) + (if truthy (jobId nt) then 1 else 0).

(** ** Sample environment *)

Definition env0 : env :=
  fun name =>
    if name =? "TELEGRAM_BOT_TOKEN" then Some "123:ABC"
    else if name =? "PUBLIC_URL" then Some "https://bot.example.com/"
    else if name =? "BACKEND_URL" then Some "https://backend.example.com"
    else if name =? "BACKEND_SECRET" then Some "s3cret"
    else if name =? "TELEGRAM_WEBHOOK_SECRET" then Some "a&b=c d"
    else None.

Definition settings0 : settings :=
  {| TELEGRAM_BOT_TOKEN := "123:ABC";
     PUBLIC_URL := "https://bot.example.com/";
     PORT := VNum "3000";
     relay := {| TELEGRAM_WEBHOOK_SECRET := "a&b=c d";
                 BACKEND_URL := "https://backend.example.com";
                 BACKEND_SECRET := "s3cret" |} |}.

(** ** The JavaScript operations on samples *)

Example trim_command : Str.trim "  /apply  dev job
 " = "/apply  dev job".
Proof. reflexivity. Qed.

Example trim_unicode_space :
  Str.trim (Str.enc [194; 160; 32; 227; 128; 128; 10]) = "".
Proof. reflexivity. Qed.

Example replace_first_only :
  Str.replace "/apply" "" "/apply x /apply" = " x /apply".
Proof. reflexivity. Qed.

Example strip_one_slash :
  Str.strip_trailing_slash "https://b.example.com//" = "https://b.example.com/".
Proof. reflexivity. Qed.

Example to_string_array :
  to_string (VArr [VNum "1"; VNull; VArr [VStr "a"; VNum "-2"]; VObj [];
                   VNum "1e+21"])
  = Some "1,,a,-2,[object Object],1e+21".
Proof. reflexivity. Qed.

Example to_string_throws :
  to_string unprintable = None
  /\ to_string (VArr [VStr "a"; VArr [unprintable]]) = None
  /\ to_string (VObj [("valueOf", VNum "1")]) = Some "[object Object]".
Proof. repeat split. Qed.

Example file_id_zero_is_kept :
  tgPdfId (read_notice (VObj [("tg_pdf_id", VNum "0")])) = VNum "0"
  /\ tgPdfId (read_notice (VObj [("tg_pdf_id", VStr "")])) = VNull.
Proof. split; reflexivity. Qed.

(** ** Facts about values, requests and the monad *)

Lemma field_or_empty (k : string) (b : value) :
  field k (or b (VObj [])) = field k b.
Proof.
  unfold or. destruct (truthy b) eqn:T; [reflexivity|].
  destruct b; simpl in T; try discriminate; reflexivity.
Qed.

Lemma truthy_field_object (k : string) (b : value) :
  truthy (field k b) = true -> or b (VObj []) = b.
Proof.
  destruct b; simpl; try discriminate. reflexivity.
Qed.

Lemma or_truthy (a b : value) : truthy a = true -> or a b = a.
Proof. unfold or. intros ->. reflexivity. Qed.

Lemma or_falsy (a b : value) : truthy a = false -> or a b = b.
Proof. unfold or. intros ->. reflexivity. Qed.

Lemma header_of_valid_key (cfg : config) (req : request) :
  valid_key cfg req -> header_or_empty req "x-api-key" = BACKEND_SECRET cfg.
Proof. intros [H _]. unfold header_or_empty. rewrite H. reflexivity. Qed.

Lemma key_accepted (cfg : config) (req : request) :
  valid_key cfg req ->
  (header_or_empty req "x-api-key" =? "")
  || negb (header_or_empty req "x-api-key" =? BACKEND_SECRET cfg) = false.
Proof.
  intros H. rewrite (header_of_valid_key _ _ H). destruct H as [_ H].
  rewrite String.eqb_refl. apply String.eqb_neq in H. rewrite H. reflexivity.
Qed.

Lemma key_refused (cfg : config) (req : request) :
  req_get req "x-api-key" = None \/
  req_get req "x-api-key" = Some "" \/
  req_get req "x-api-key" <> Some (BACKEND_SECRET cfg) ->
  (header_or_empty req "x-api-key" =? "")
  || negb (header_or_empty req "x-api-key" =? BACKEND_SECRET cfg) = true.
Proof.
  unfold header_or_empty.
  intros [H | [H | H]]; try (rewrite H; reflexivity).
  destruct (req_get req "x-api-key") as [k|]; [|reflexivity].
  destruct (String.eqb_spec k (BACKEND_SECRET cfg)) as [->|N].
  - congruence.
  - apply orb_true_r.
Qed.

(** The [catch] block of the delivery never throws: the notice it sends is
    in a [try] of its own. *)
Lemma delivery_failed_run (nt : notice) (err : value) (s : script) (n : nat) :
  delivery_failed nt err s n =
  mkRun (Ok (status_json 500 (error_body "failed to deliver resume")))
        [Console Error [VStr "Error sending document to user"; userId nt; err];
         Call (SendMessage (userId nt) DELIVERY_FAILED_TEXT) (s n)]
        (S n).
Proof.
  unfold delivery_failed, bind, try_catch, after, perform, console, ret.
  cbn [answer events asked app].
  destruct (s n); reflexivity.
Qed.

(** Past the key and [userId] checks, a notice whose status is
    ["completed"] runs the delivery [try] and its [catch]; the outer
    [catch] has nothing to catch. *)
Lemma resume_ready_completed (cfg : config) (req : request) (s : script) (n : nat) :
  valid_key cfg req ->
  truthy (field "userId" (body req)) = true ->
  or (field "status" (body req)) (VStr "completed") = VStr "completed" ->
  resume_ready cfg req s n =
  try_catch (deliver (body req) (read_notice (body req)))
            (delivery_failed (read_notice (body req))) s n.
Proof.
  intros K U St. unfold resume_ready.
  rewrite (truthy_field_object _ _ U).
  unfold try_catch at 1. rewrite (key_accepted _ _ K). cbn [orb negb].
  change (userId (read_notice (body req))) with (field "userId" (body req)).
  change (status (read_notice (body req)))
    with (or (field "status" (body req)) (VStr "completed")).
  rewrite U, St. cbn [negb strict_eq]. rewrite String.eqb_refl. cbn [negb].
  unfold try_catch.
  destruct (deliver (body req) (read_notice (body req)) s n) as [[a|e] es n'].
  - reflexivity.
  - rewrite delivery_failed_run. reflexivity.
Qed.

Ltac js_step :=
  unfold literal;
  unfold bind, try_catch, detached, after, perform, console, ret, throw;
  cbn [answer events asked app].


(** An outcome is a rejection with [err] or it is not; used to walk through
    the sends of a [try] block one at a time. *)
Ltac case_outcome s n :=
  let o := fresh "o" in
  let E := fresh "E" in
  destruct (s n) as [o|o] eqn:E; cbn [answer events asked app].

Lemma append_empty (s : string) : s ++ "" = s.
Proof. induction s as [|c s IH]; simpl; [|rewrite IH]; reflexivity. Qed.


(** The delivery error, wherever it strikes. *)
Example delivery_error_at_document :
  answer (resume_ready cfg0 (post (Some "s3cret") completed_notice) (fails_at 0) 0)
  = Ok (status_json 500 (error_body "failed to deliver resume"))
  /\ calls (events (resume_ready cfg0 (post (Some "s3cret") completed_notice)
                                 (fails_at 0) 0))
     = [SendDocument (VNum "532287234") (VStr "X")
                     (VStr "Your resume (HR Contact: h@x.com)");
        SendMessage (VNum "532287234") DELIVERY_FAILED_TEXT].
Proof. split; reflexivity. Qed.

Example delivery_error_at_hr_contact :
  answer (resume_ready cfg0 (post (Some "s3cret") completed_notice) (fails_at 1) 0)
  = Ok (status_json 500 (error_body "failed to deliver resume"))
  /\ calls (events (resume_ready cfg0 (post (Some "s3cret") completed_notice)
                                 (fails_at 1) 0))
     = [SendDocument (VNum "532287234") (VStr "X")
                     (VStr "Your resume (HR Contact: h@x.com)");
        SendMessage (VNum "532287234") (hr_contact_text "h@x.com");
        SendMessage (VNum "532287234") DELIVERY_FAILED_TEXT].
Proof. split; reflexivity. Qed.

(** ** The properties of the handlers *)

(** C1, as stated, fails.  With an [hrEmail] that is present but that no
    template literal can print, the caption cannot be built: nothing is
    delivered and the answer is 500, even when the platform accepts every
    send.  And with an [hrEmail] and a [jobId] that are strings, a send the
    platform rejects ends the delivery with 500. *)
Lemma completed_notice_not_always_three_sends :
  ~ (forall (cfg : config) (req : request) (s : script) (n : nat),
        valid_key cfg req ->
        truthy (field "userId" (body req)) = true ->
        field "status" (body req) = VStr "completed" ->
        field "tg_pdf_id" (body req) = VStr "X" ->
        truthy (field "hrEmail" (body req)) = true ->
        truthy (field "jobId" (body req)) = true ->
        resolves s n 3 ->
        let r := resume_ready cfg req s n in
        answer r = Ok (res_json ok_true)
        /\ exists caption hr job,
             calls (events r) =
               [SendDocument (field "userId" (body req)) (VStr "X") caption;
                SendMessage (field "userId" (body req)) hr;
                SendMessage (field "userId" (body req)) job])
  /\ ~ (forall (cfg : config) (req : request) (s : script) (n : nat),
        valid_key cfg req ->
        truthy (field "userId" (body req)) = true ->
        field "status" (body req) = VStr "completed" ->
        field "tg_pdf_id" (body req) = VStr "X" ->
        field "hrEmail" (body req) = VStr "h@x.com" ->
        field "jobId" (body req) = VStr "J1" ->
        answer (resume_ready cfg req s n) = Ok (res_json ok_true)).
Proof.
  assert (V : forall b, valid_key cfg0 (post (Some "s3cret") b))
    by (intros b; split; [reflexivity | discriminate]).
  split; intros H.
  - assert (R : resolves all_fine 0 3)
      by (intros i _; exists (VObj []); reflexivity).
    destruct (H cfg0 (post (Some "s3cret") unprintable_contact_notice) all_fine 0%nat
                (V _) eq_refl eq_refl eq_refl eq_refl eq_refl R) as [A _].
    vm_compute in A. discriminate A.
  - pose proof (H cfg0 (post (Some "s3cret") completed_notice) (fails_at 0) 0%nat
                  (V _) eq_refl eq_refl eq_refl eq_refl eq_refl) as A.
    vm_compute in A. discriminate A.
Qed.

(** C1, amended: a [/resume-ready] request with the backend secret, a
    [userId], status "completed", a file identifier [tg_pdf_id], and an
    [hrEmail] and a [jobId] that are present (truthy) and that a template
    literal prints as [hr] and [job], when the platform accepts the three
    sends, makes exactly three platform calls, in this order: the document
    [tg_pdf_id] with a caption containing [hr], a message containing [hr],
    and the message "Job ID: <job>"; it answers 200 [{ok: true}]. *)
Theorem resume_ready_completed_three_sends
        (cfg : config) (req : request) (s : script) (n : nat) (hr job : string) :
  valid_key cfg req ->
  truthy (field "userId" (body req)) = true ->
  field "status" (body req) = VStr "completed" ->
  truthy (field "tg_pdf_id" (body req)) = true ->
  truthy (field "hrEmail" (body req)) = true ->
  truthy (field "jobId" (body req)) = true ->
  to_string (field "hrEmail" (body req)) = Some hr ->
  to_string (field "jobId" (body req)) = Some job ->
  resolves s n 3 ->
  let uid := field "userId" (body req) in
  let doc := field "tg_pdf_id" (body req) in
  let caption := "Your resume (HR Contact: " ++ hr ++ ")" in
  resume_ready cfg req s n =
    mkRun (Ok (res_json ok_true))
          [Call (SendDocument uid doc (VStr caption)) (s n);
           Call (SendMessage uid (hr_contact_text hr)) (s (S n));
           Call (SendMessage uid (job_id_text job)) (s (S (S n)))]
          (S (S (S n)))
  /\ contains hr caption
  /\ contains hr (hr_contact_text hr)
  /\ job_id_text job = "Job ID: " ++ job.
Proof.
  intros K U St D H J Ph Pj R uid doc caption.
  split; [|split; [|split]].
  - rewrite (resume_ready_completed cfg req s n K U)
      by (rewrite St; reflexivity).
    unfold deliver, read_notice. cbn [userId tgPdfId pdfUrl hrEmail jobId].
    rewrite D. cbn [orb].
    rewrite (or_truthy _ _ H), (or_truthy _ _ J).
    rewrite !(or_truthy _ VNull) by assumption.
    rewrite D, H, J. unfold caption_text, hr_text, job_text.
    rewrite H, Ph, Pj. cbn [option_map].
    destruct (R 0%nat) as [v0 E0]; [lia|].
    destruct (R 1%nat) as [v1 E1]; [lia|].
    destruct (R 2%nat) as [v2 E2]; [lia|].
    cbn [Nat.add] in E0, E1, E2.
    js_step. rewrite E0. cbn [app]. rewrite E1. cbn [app]. rewrite E2.
    reflexivity.
  - exists "Your resume (HR Contact: ", ")". reflexivity.
  - unfold hr_contact_text.
    match goal with |- contains _ (?p ++ _) => exists p, "" end.
    rewrite append_empty. reflexivity.
  - reflexivity.
Qed.

Lemma resume_ready_completed_three_sends_witness :
  resume_ready cfg0 (post (Some "s3cret") completed_notice) all_fine 0 =
    mkRun (Ok (res_json ok_true))
          [Call (SendDocument (VNum "532287234") (VStr "X")
                   (VStr "Your resume (HR Contact: h@x.com)"))
                (Resolved (VObj []));
           Call (SendMessage (VNum "532287234") (hr_contact_text "h@x.com"))
                (Resolved (VObj []));
           Call (SendMessage (VNum "532287234") "Job ID: J1") (Resolved (VObj []))]
          3.
Proof.
  apply (resume_ready_completed_three_sends
           cfg0 (post (Some "s3cret") completed_notice) all_fine 0 "h@x.com" "J1");
    try reflexivity.
  - split; [reflexivity | discriminate].
  - intros i _. exists (VObj []). reflexivity.
Defined.



(** C6: a [/resume-ready] request whose [x-api-key] header is missing, empty
    or different from the backend secret is answered 403; the handler makes no
    call to the platform or to the backend, it only writes a warning to the
    console. *)
Theorem resume_ready_bad_key
        (cfg : config) (req : request) (s : script) (n : nat) :
  req_get req "x-api-key" = None \/
  req_get req "x-api-key" = Some "" \/
  req_get req "x-api-key" <> Some (BACKEND_SECRET cfg) ->
  let r := resume_ready cfg req s n in
  r = mkRun (Ok (sendStatus 403))
            [Console Warn [VStr "Unauthorized resume-ready call from"; VStr (ip req)]]
            n
  /\ calls (events r) = []
  /\ asked r = n.
Proof.
  intros K r. subst r. unfold resume_ready.
  unfold try_catch at 1. rewrite (key_refused cfg req K).
  js_step. repeat split.
Qed.

Lemma resume_ready_bad_key_witness :
  resume_ready cfg0 (post (Some "guess") completed_notice) all_fine 0 =
    mkRun (Ok (sendStatus 403))
          [Console Warn [VStr "Unauthorized resume-ready call from"; VStr "10.0.0.7"]]
          0
  /\ resume_ready cfg0 (post None completed_notice) all_fine 0 =
    mkRun (Ok (sendStatus 403))
          [Console Warn [VStr "Unauthorized resume-ready call from"; VStr "10.0.0.7"]]
          0.
Proof.
  split.
  - apply (resume_ready_bad_key cfg0 (post (Some "guess") completed_notice) all_fine 0).
    right. right. discriminate.
  - apply (resume_ready_bad_key cfg0 (post None completed_notice) all_fine 0).
    left. reflexivity.
Defined.

(** C7: a [/resume-ready] request with the backend secret whose body has no
    [userId] (or a falsy one) is answered 400 [{error: "missing userId"}]; the
    handler makes no call to the platform or to the backend, it only writes a
    warning to the console. *)
Theorem resume_ready_missing_userId
        (cfg : config) (req : request) (s : script) (n : nat) :
  valid_key cfg req ->
  truthy (field "userId" (body req)) = false ->
  let r := resume_ready cfg req s n in
  r = mkRun (Ok (status_json 400 (error_body "missing userId")))
            [Console Warn [VStr "resume-ready missing userId"]]
            n
  /\ calls (events r) = []
  /\ asked r = n.
Proof.
  intros K U r. subst r. unfold resume_ready.
  unfold try_catch at 1. rewrite (key_accepted cfg req K).
  cbn [userId read_notice]. rewrite field_or_empty, U.
  js_step. repeat split.
Qed.

Lemma resume_ready_missing_userId_witness :
  resume_ready cfg0
    (post (Some "s3cret") (VObj [("status", VStr "completed"); ("tg_pdf_id", VStr "X")]))
    all_fine 0 =
    mkRun (Ok (status_json 400 (error_body "missing userId")))
          [Console Warn [VStr "resume-ready missing userId"]]
          0.
Proof.
  apply (resume_ready_missing_userId cfg0
           (post (Some "s3cret")
                 (VObj [("status", VStr "completed"); ("tg_pdf_id", VStr "X")]))
           all_fine 0).
  - split; [reflexivity | discriminate].
  - reflexivity.
Defined.

(** *** The message listener *)

(** The detached task starts with the POST to the backend's [/apply], and
    sends no acknowledgement. *)
Lemma submit_job_events (cfg : config) (chatId uid username : value) (jd : string)
      (s : script) (n : nat) :
  exists rest,
    events (detached (submit_job cfg chatId uid username jd) s n) =
      Call (AxiosPost (apply_url cfg) (job_submission chatId uid username jd)
                      (BACKEND_SECRET cfg) 10000) (s n) :: rest
    /\ filter (is_message ACK_TEXT) (calls rest) = [].
Proof.
  unfold submit_job, member, TypeError. js_step.
  destruct (s n) as [resp|err]; cbn [app].
  - destruct (truthy resp && truthy (field "data" resp)
              && truthy (field "jobId" (field "data" resp))).
    + eexists. split; reflexivity.
    + destruct resp; cbn [app];
        try (eexists; split; reflexivity);
        destruct (s (S n)); cbn [app]; eexists; split; reflexivity.
  - destruct err; cbn [app]; try (eexists; split; reflexivity);
      destruct (s (S n)); cbn [app]; eexists; split; reflexivity.
Qed.

Lemma after_nil {A} (r : run A) : after [] r = r.
Proof. destruct r. reflexivity. Qed.

Lemma bind_ret {A B} (a : A) (k : A -> M B) (s : script) (n : nat) :
  bind (ret a) k s n = k a s n.
Proof. unfold bind, ret. apply after_nil. Qed.

Lemma or_text (text : string) : or (VStr text) (VStr "") = VStr text.
Proof. destruct text; reflexivity. Qed.

Lemma job_description_trimmed (text : string) :
  job_description text <> "" -> (Str.trim text =? "") = false.
Proof.
  unfold job_description. intros H. apply String.eqb_neq. intros E.
  rewrite E in H. apply H. reflexivity.
Qed.

(** Past the guards, the listener sends the acknowledgement and, once that
    send has resolved, starts the detached submission. *)
Lemma on_message_events (cfg : config) (msg : value) (text : string)
      (s : script) (n : nat) :
  truthy (field "from" msg) = true ->
  truthy (field "chat" msg) = true ->
  field "text" msg = VStr text ->
  job_description text <> "" ->
  let chatId := field "id" (field "chat" msg) in
  let uid := field "id" (field "from" msg) in
  let username := or (field "username" (field "from" msg)) (VStr "") in
  exists rest,
    events (on_message cfg msg s n) =
      Call (SendMessage chatId ACK_TEXT) (s n) :: rest
    /\ filter (is_message ACK_TEXT) (calls rest) = []
    /\ (forall v, s n = Resolved v ->
        exists tail,
          rest = Call (AxiosPost (apply_url cfg)
                         (job_submission chatId uid username (job_description text))
                         (BACKEND_SECRET cfg) 10000) (s (S n)) :: tail)
    /\ (forall e, s n = Rejected e -> filter is_backend_call (calls rest) = []).
Proof.
  intros F C T J chatId uid username.
  assert (Hm : truthy msg = true) by (destruct msg; try discriminate F; reflexivity).
  unfold on_message. rewrite Hm, F, C, T, or_text. cbn [negb orb call_trim].
  unfold try_catch at 1. rewrite bind_ret. cbv beta zeta.
  rewrite (job_description_trimmed text J).
  unfold job_description in J. fold chatId uid username.
  set (jd := job_description text).
  assert (Run : forall jd',
    exists rest,
      events (match (perform (SendMessage chatId ACK_TEXT) ;;
                     detached (submit_job cfg chatId uid username jd')) s n with
              | mkRun (Ok a) es n' => mkRun (Ok a) (es)%list n'
              | mkRun (Throw e) es n' =>
                  after es (console Error [VStr "Error in message handler:"; e] s n')
              end) =
        Call (SendMessage chatId ACK_TEXT) (s n) :: rest
      /\ filter (is_message ACK_TEXT) (calls rest) = []
      /\ (forall v, s n = Resolved v ->
          exists tail,
            rest = Call (AxiosPost (apply_url cfg)
                           (job_submission chatId uid username jd')
                           (BACKEND_SECRET cfg) 10000) (s (S n)) :: tail)
      /\ (forall e, s n = Rejected e -> filter is_backend_call (calls rest) = [])).
  { intros jd'.
    destruct (submit_job_events cfg chatId uid username jd' s (S n)) as [rest [E N]].
    unfold bind at 1. unfold perform at 1.
    destruct (s n) as [v|e] eqn:O.
    - unfold after.
      destruct (detached (submit_job cfg chatId uid username jd') s (S n))
        as [[a|a] es n'] eqn:D; cbn [events] in E; subst es;
        cbn [events app].
      + exists (Call (AxiosPost (apply_url cfg)
                       (job_submission chatId uid username jd')
                       (BACKEND_SECRET cfg) 10000) (s (S n)) :: rest).
        repeat split; try assumption.
        * intros v' _. eexists. reflexivity.
        * intros e' H. discriminate H.
      + unfold detached in D.
        destruct (submit_job cfg chatId uid username jd' s (S n)) as [[?|?] ? ?];
          discriminate D.
    - unfold after, console. cbn [events app].
      eexists. repeat split.
      intros v H. discriminate H. }
  unfold jd, job_description.
  destruct (Str.startsWith "/apply" (Str.trim text)).
  - apply String.eqb_neq in J. rewrite J. apply Run.
  - apply Run.
Qed.

(** C3, as stated, fails: the text "/apply" alone is not empty after
    trimming, yet the listener answers it with the usage hint and sends no
    acknowledgement. *)
Lemma bare_apply_command_not_acknowledged :
  ~ (forall (cfg : config) (msg : value) (text : string) (s : script) (n : nat),
        truthy (field "from" msg) = true ->
        truthy (field "chat" msg) = true ->
        field "text" msg = VStr text ->
        Str.trim text <> "" ->
        acknowledged_before_submit (field "id" (field "chat" msg))
                                   (events (on_message cfg msg s n))).
Proof.
  intros H.
  destruct (H cfg0 (chat_message "/apply") "/apply" all_fine 0%nat)
    as [pre [o [post [E _]]]]; try reflexivity.
  - vm_compute. discriminate.
  - vm_compute in E. destruct pre as [|e pre].
    + cbn [app] in E. inversion E.
    + destruct pre; cbn [app] in E; inversion E.
Qed.

(** C3, amended: an inbound message with a sender and a chat whose job
    description -- the trimmed text, with a leading "/apply" removed and
    trimmed again -- is not empty makes the listener send exactly one
    acknowledgement to the chat, as its first action; the POST to the
    backend's [/apply] starts only after that send has resolved. *)
Theorem on_message_acknowledges_first
        (cfg : config) (msg : value) (text : string) (s : script) (n : nat) :
  truthy (field "from" msg) = true ->
  truthy (field "chat" msg) = true ->
  field "text" msg = VStr text ->
  job_description text <> "" ->
  let chatId := field "id" (field "chat" msg) in
  let uid := field "id" (field "from" msg) in
  let username := or (field "username" (field "from" msg)) (VStr "") in
  let t := events (on_message cfg msg s n) in
  acknowledged_before_submit chatId t
  /\ exists rest,
       t = Call (SendMessage chatId ACK_TEXT) (s n) :: rest
       /\ (forall v, s n = Resolved v ->
           exists tail,
             rest = Call (AxiosPost (apply_url cfg)
                            (job_submission chatId uid username (job_description text))
                            (BACKEND_SECRET cfg) 10000) (s (S n)) :: tail)
       /\ (forall e, s n = Rejected e -> filter is_backend_call (calls rest) = []).
Proof.
  intros F C T J chatId uid username t.
  destruct (on_message_events cfg msg text s n F C T J) as [rest [E [N [P Q]]]].
  fold chatId uid username in E, P. fold t in E.
  split.
  - exists [], (s n), rest. rewrite E. repeat split; assumption.
  - exists rest. repeat split; assumption.
Qed.

Lemma on_message_acknowledges_first_witness :
  acknowledged_before_submit (VNum "7")
    (events (on_message cfg0 (chat_message " /apply  backend dev ") all_fine 0)).
Proof.
  apply (on_message_acknowledges_first
           cfg0 (chat_message " /apply  backend dev ") " /apply  backend dev "
           all_fine 0); try reflexivity.
  vm_compute. discriminate.
Defined.

(** *** The document of a completed notice *)

Lemma truthy_tgPdfId (b : value) :
  truthy (tgPdfId (read_notice b)) = truthy (field "tg_pdf_id" b).
Proof.
  cbn [tgPdfId read_notice].
  destruct (truthy (field "tg_pdf_id" b)) eqn:T; cbn [orb].
  - exact T.
  - destruct (field "tg_pdf_id" b) as [| | |z| | |]; cbn [strict_eq]; try reflexivity.
    destruct (String.eqb_spec z "0") as [->|N]; reflexivity.
Qed.


Lemma truthy_or_null (v : value) : truthy (or v VNull) = truthy v.
Proof. unfold or. destruct (truthy v) eqn:T; [exact T | reflexivity]. Qed.

Lemma pdfUrl_truthy (b : value) :
  truthy (field "pdf_url" b) = true -> pdfUrl (read_notice b) = field "pdf_url" b.
Proof. intros T. cbn [pdfUrl read_notice]. apply or_truthy, T. Qed.

(** Splits on the values the template literals of the goal print: a text, or
    a [TypeError]. *)
Ltac open_texts :=
  unfold failure_text, caption_text, hr_text, job_text in *.

Ltac case_prints :=
  open_texts;
  repeat match goal with
         | |- context [to_string ?v] => destruct (to_string v)
         end;
  cbn [option_map] in *.

(** Walks through the sends of the delivery [try] block and of its [catch],
    outcome by outcome. *)
Ltac walk s n :=
  js_step;
  try case_outcome s n; try case_outcome s (S n); try case_outcome s (S (S n));
  rewrite ?delivery_failed_run; unfold after; cbn [app events answer asked].

Ltac settle :=
  repeat match goal with
         | |- _ /\ _ => split
         | |- forall _, _ => intro
         | H : Some _ = None |- _ => discriminate H
         | H : None = Some _ |- _ => discriminate H
         | H : Some _ = Some _ |- _ => injection H as <-
         end;
  repeat match goal with
         | E : ?x = Resolved _ |- context [?x] => rewrite E
         | E : ?x = Rejected _ |- context [?x] => rewrite E
         end;
  try reflexivity; try (eexists; reflexivity); try (eexists; split; reflexivity).

(** The delivery of a notice that names a document [doc]: with a caption the
    document is the first call and the only document; without one the
    [TypeError] of the template literal ends the delivery before any send. *)
Lemma delivery_with_document (b : value) (nt : notice) (s : script) (n : nat)
      (doc : value) :
  (truthy (tgPdfId nt) = true /\ doc = tgPdfId nt)
  \/ (truthy (tgPdfId nt) = false /\ truthy (pdfUrl nt) = true /\ doc = pdfUrl nt) ->
  let r := try_catch (deliver b nt) (delivery_failed nt) s n in
  (forall caption,
     caption_text (hrEmail nt) = Some caption ->
     (exists rest,
        events r = Call (SendDocument (userId nt) doc (VStr caption)) (s n) :: rest)
     /\ filter is_document (calls (events r)) =
          [SendDocument (userId nt) doc (VStr caption)])
  /\ (caption_text (hrEmail nt) = None ->
      r = mkRun (Ok (status_json 500 (error_body "failed to deliver resume")))
                [Console Error [VStr "Error sending document to user"; userId nt;
                                TypeError];
                 Call (SendMessage (userId nt) DELIVERY_FAILED_TEXT) (s n)]
                (S n)).
Proof.
  intros D. cbv zeta. unfold try_catch, deliver. open_texts.
  destruct D as [[Tg ->] | [Tg [Tp ->]]]; rewrite Tg, ?Tp;
    destruct (truthy (hrEmail nt)), (truthy (jobId nt));
    case_prints; walk s n; settle.
Qed.

(** The delivery of a notice that names no document. *)
Lemma delivery_without_document (b : value) (nt : notice) (s : script) (n : nat) :
  truthy (tgPdfId nt) = false ->
  truthy (pdfUrl nt) = false ->
  let r := try_catch (deliver b nt) (delivery_failed nt) s n in
  filter is_document (calls (events r)) = []
  /\ (exists rest,
        events r = Call (SendMessage (userId nt) NO_FILE_TEXT) (s n) :: rest
        /\ filter (is_message NO_FILE_TEXT) (calls rest) = [])
  /\ (resolves s n (sends_without_document nt) ->
      (truthy (hrEmail nt) = true -> hr_text (hrEmail nt) <> None) ->
      (truthy (jobId nt) = true -> job_text (jobId nt) <> None) ->
      answer r = Ok (res_json ok_true)
      /\ logged Warn (events r) =
           [[VStr "resume-ready missing file for user"; userId nt;
             VStr "payload:"; b]]).
Proof.
  intros Tg Tp. cbv zeta. unfold try_catch, deliver, sends_without_document.
  open_texts. rewrite Tg, Tp.
  split; [|split].
  - destruct (truthy (hrEmail nt)), (truthy (jobId nt));
      case_prints; walk s n; reflexivity.
  - destruct (truthy (hrEmail nt)), (truthy (jobId nt));
      case_prints; walk s n; eexists; split; reflexivity.
  - intros R Ph Pj.
    destruct (R 0%nat) as [v0 E0]; [lia|]. cbn [Nat.add] in E0.
    destruct (truthy (hrEmail nt)), (truthy (jobId nt));
      cbn [Nat.add] in R;
      try (destruct (R 1%nat) as [v1 E1]; [lia|]; cbn [Nat.add] in E1);
      try (destruct (R 2%nat) as [v2 E2]; [lia|]; cbn [Nat.add] in E2);
      try specialize (Ph eq_refl); try specialize (Pj eq_refl);
      case_prints; try contradiction;
      js_step; rewrite ?E0; cbn [app]; rewrite ?E1; cbn [app];
      rewrite ?E2; cbn [app]; split; reflexivity.
Qed.

Lemma notice_of_request (b : value) :
  userId (read_notice b) = field "userId" b.
Proof. reflexivity. Qed.




(** C10: with [tg_pdf_id] the number 0, the file identifier read from the
    body is 0 (the [=== 0] case keeps it), and the delivery treats it as
    absent: whatever happens, no document is sent by file identifier.  The
    delivery takes the branch of a truthy [pdf_url]: that URL is the one
    document sent, first, once its caption is built, and if the caption cannot
    be built nothing is sent but the notice of the failed delivery.  Without
    a [pdf_url] the delivery takes the branch of the apology message. *)
Theorem resume_ready_zero_file_id
        (cfg : config) (req : request) (s : script) (n : nat) :
  valid_key cfg req ->
  truthy (field "userId" (body req)) = true ->
  or (field "status" (body req)) (VStr "completed") = VStr "completed" ->
  field "tg_pdf_id" (body req) = VNum "0" ->
  let b := body req in
  let nt := read_notice b in
  let uid := field "userId" b in
  let r := resume_ready cfg req s n in
  tgPdfId nt = VNum "0"
  /\ (forall caption, ~ In (SendDocument uid (VNum "0") caption) (calls (events r)))
  /\ (truthy (field "pdf_url" b) = true ->
      (forall caption, caption_text (hrEmail nt) = Some caption ->
         (exists rest,
            events r =
              Call (SendDocument uid (field "pdf_url" b) (VStr caption)) (s n) :: rest)
         /\ filter is_document (calls (events r)) =
              [SendDocument uid (field "pdf_url" b) (VStr caption)])
      /\ (caption_text (hrEmail nt) = None ->
          calls (events r) = [SendMessage uid DELIVERY_FAILED_TEXT]))
  /\ (truthy (field "pdf_url" b) = false ->
      filter is_document (calls (events r)) = []
      /\ exists rest,
           events r = Call (SendMessage uid NO_FILE_TEXT) (s n) :: rest
           /\ filter (is_message NO_FILE_TEXT) (calls rest) = []).
Proof.
  intros K U St Z b nt uid r.
  assert (Tg : truthy (tgPdfId nt) = false).
  { unfold nt. rewrite truthy_tgPdfId. unfold b. rewrite Z. reflexivity. }
  assert (R : r = try_catch (deliver b nt) (delivery_failed nt) s n)
    by exact (resume_ready_completed cfg req s n K U St).
  assert (WithUrl : truthy (field "pdf_url" b) = true ->
            (truthy (tgPdfId nt) = true /\ field "pdf_url" b = tgPdfId nt)
            \/ (truthy (tgPdfId nt) = false /\ truthy (pdfUrl nt) = true
                /\ field "pdf_url" b = pdfUrl nt)).
  { intros Tp. right. unfold nt. rewrite (pdfUrl_truthy b Tp).
    fold nt. tauto. }
  assert (NoUrl : truthy (field "pdf_url" b) = false -> truthy (pdfUrl nt) = false).
  { intros Tp. unfold nt. cbn [pdfUrl read_notice]. rewrite truthy_or_null. exact Tp. }
  split; [|split; [|split]].
  - unfold nt, b. cbn [tgPdfId read_notice]. rewrite Z. reflexivity.
  - intros caption I.
    assert (Doc : In (SendDocument uid (VNum "0") caption)
                     (filter is_document (calls (events r)))).
    { apply filter_In. split; [exact I | reflexivity]. }
    destruct (truthy (field "pdf_url" b)) eqn:Tp.
    + destruct (delivery_with_document b nt s n _ (WithUrl eq_refl)) as [P Q].
      rewrite <- R in P, Q.
      destruct (caption_text (hrEmail nt)) as [c|] eqn:C.
      * destruct (P c eq_refl) as [_ F]. rewrite F in Doc.
        destruct Doc as [E|[]]. injection E as E _. rewrite E in Tp.
        discriminate Tp.
      * rewrite (Q eq_refl) in Doc. destruct Doc.
    + destruct (delivery_without_document b nt s n Tg (NoUrl eq_refl)) as [F _].
      rewrite <- R in F. rewrite F in Doc. destruct Doc.
  - intros Tp.
    destruct (delivery_with_document b nt s n _ (WithUrl Tp)) as [P Q].
    rewrite <- R in P, Q. split; [exact P|].
    intros C. rewrite (Q C). reflexivity.
  - intros Tp.
    destruct (delivery_without_document b nt s n Tg (NoUrl Tp)) as [F [A _]].
    rewrite <- R in F, A. split; assumption.
Qed.

Lemma resume_ready_zero_file_id_witness :
  tgPdfId (read_notice zero_id_notice) = VNum "0"
  /\ filter is_document
       (calls (events (resume_ready cfg0 (post (Some "s3cret") zero_id_notice) all_fine 0)))
     = [SendDocument (VNum "5") (VStr "https://files.example.com/r.pdf")
                     (VStr "Your resume (generated).")].
Proof.
  split.
  - apply (resume_ready_zero_file_id
             cfg0 (post (Some "s3cret") zero_id_notice) all_fine 0);
      try reflexivity.
    split; [reflexivity | discriminate].
  - apply (resume_ready_zero_file_id
             cfg0 (post (Some "s3cret") zero_id_notice) all_fine 0);
      try reflexivity.
    split; [reflexivity | discriminate].
Defined.

(** *** A notice of failure *)

Lemma strict_eq_completed (v : value) :
  v <> VStr "completed" -> strict_eq v (VStr "completed") = false.
Proof.
  intros H. destruct v; try reflexivity. cbn [strict_eq].
  apply String.eqb_neq. congruence.
Qed.

(** Past the key and [userId] checks, a truthy status other than "completed"
    runs the failure branch inside the outer [try]. *)
Lemma resume_ready_failed (cfg : config) (req : request) (s : script) (n : nat) :
  valid_key cfg req ->
  truthy (field "userId" (body req)) = true ->
  truthy (field "status" (body req)) = true ->
  field "status" (body req) <> VStr "completed" ->
  let nt := read_notice (body req) in
  resume_ready cfg req s n =
    try_catch
      (text <- literal (failure_text (jobId nt)) ;;
       perform (SendMessage (field "userId" (body req)) text) ;;
       ret (res_json ok_true))
      (fun err =>
         console Error [VStr "Error in /resume-ready:"; err] ;;
         ret (status_json 500 (error_body "internal error"))) s n.
Proof.
  intros K U T N nt. unfold resume_ready.
  rewrite (truthy_field_object _ _ U).
  unfold try_catch. rewrite (key_accepted _ _ K). cbn [orb negb].
  fold nt.
  change (userId nt) with (field "userId" (body req)).
  change (status nt) with (or (field "status" (body req)) (VStr "completed")).
  rewrite U, (or_truthy _ _ T), (strict_eq_completed _ N). cbn [negb].
  reflexivity.
Qed.

(** C5, as stated, fails.  A status that is given and is not "completed", but
    is falsy (here [false]), is replaced by the default "completed": the
    handler sends the apology and the job id, not the failure message.  With
    a truthy status, a [jobId] no template literal can print leaves the
    failure message unbuilt: nothing is sent.  And a failure message the
    platform rejects is answered 500. *)
Lemma falsy_status_not_relayed_as_failure :
  ~ (forall (cfg : config) (req : request) (s : script) (n : nat),
        valid_key cfg req ->
        truthy (field "userId" (body req)) = true ->
        field "status" (body req) <> VUndefined ->
        field "status" (body req) <> VStr "completed" ->
        resolves s n 4 ->
        exists job,
          calls (events (resume_ready cfg req s n)) =
            [SendMessage (field "userId" (body req)) (generation_failed_text job)])
  /\ ~ (forall (cfg : config) (req : request) (s : script) (n : nat),
        valid_key cfg req ->
        truthy (field "userId" (body req)) = true ->
        truthy (field "status" (body req)) = true ->
        field "status" (body req) <> VStr "completed" ->
        resolves s n 4 ->
        exists job,
          calls (events (resume_ready cfg req s n)) =
            [SendMessage (field "userId" (body req)) (generation_failed_text job)])
  /\ ~ (forall (cfg : config) (req : request) (s : script) (n : nat),
        valid_key cfg req ->
        truthy (field "userId" (body req)) = true ->
        field "status" (body req) = VStr "failed" ->
        field "jobId" (body req) = VStr "J2" ->
        answer (resume_ready cfg req s n) = Ok (res_json ok_true)).
Proof.
  assert (V : forall b, valid_key cfg0 (post (Some "s3cret") b))
    by (intros b; split; [reflexivity | discriminate]).
  assert (R : resolves all_fine 0 4)
    by (intros i _; exists (VObj []); reflexivity).
  split; [|split]; intros H.
  - destruct (H cfg0 (post (Some "s3cret") false_status_notice) all_fine 0%nat
                (V _) eq_refl ltac:(discriminate) ltac:(discriminate) R) as [job E].
    vm_compute in E. inversion E.
  - destruct (H cfg0 (post (Some "s3cret") unprintable_job_notice) all_fine 0%nat
                (V _) eq_refl eq_refl ltac:(discriminate) R) as [job E].
    vm_compute in E. inversion E.
  - pose proof (H cfg0 (post (Some "s3cret") failed_notice) (fails_at 0) 0%nat
                  (V _) eq_refl eq_refl eq_refl) as A.
    vm_compute in A. discriminate A.
Qed.

(** C5, amended: on a [/resume-ready] request with the backend secret and a
    [userId], a truthy status other than "completed", with a [jobId] that is
    absent or that a template literal can print, makes the handler send one
    failure message, which names the [jobId] when there is one, and nothing
    else: no document, no HR contact, no job id message; when the platform
    accepts the send the answer is 200 [{ok: true}].  A request with no
    status, or with a falsy one ([null], [false], 0, the empty string), is
    handled as status "completed". *)
Theorem resume_ready_failure_notice
        (cfg : config) (req : request) (s : script) (n : nat) :
  valid_key cfg req ->
  truthy (field "userId" (body req)) = true ->
  let b := body req in
  let nt := read_notice b in
  let uid := field "userId" b in
  let r := resume_ready cfg req s n in
  (truthy (field "status" b) = true ->
   field "status" b <> VStr "completed" ->
   forall text, failure_text (jobId nt) = Some text ->
     calls (events r) = [SendMessage uid text]
     /\ (forall job, truthy (field "jobId" b) = true ->
                     to_string (field "jobId" b) = Some job ->
                     text = generation_failed_text job /\ contains job text)
     /\ (resolves s n 1 ->
         r = mkRun (Ok (res_json ok_true)) [Call (SendMessage uid text) (s n)] (S n)))
  /\ (truthy (field "status" b) = false ->
      status nt = VStr "completed"
      /\ r = try_catch (deliver b nt) (delivery_failed nt) s n).
Proof.
  intros K U b nt uid r. split.
  - intros T N text F.
    assert (E : forall o, s n = o ->
              r = match o with
                  | Resolved v =>
                      mkRun (Ok (res_json ok_true))
                            [Call (SendMessage uid text) o] (S n)
                  | Rejected e =>
                      mkRun (Ok (status_json 500 (error_body "internal error")))
                            [Call (SendMessage uid text) o;
                             Console Error [VStr "Error in /resume-ready:"; e]]
                            (S n)
                  end).
    { intros o O. unfold r.
      rewrite (resume_ready_failed cfg req s n K U T N). cbv zeta.
      fold b. fold nt. fold uid. rewrite F.
      js_step. rewrite O. destruct o; reflexivity. }
    split; [|split].
    + rewrite (E (s n) eq_refl). destruct (s n); reflexivity.
    + intros job J P. unfold nt, failure_text in F. cbn [jobId read_notice] in F.
      fold b in F.
      rewrite (or_truthy _ VNull J), (or_truthy _ (VStr "") J), P in F.
      cbn [option_map] in F. injection F as <-.
      split; [reflexivity|]. unfold generation_failed_text.
      eexists _, _. reflexivity.
    + intros R. destruct (R 0%nat) as [v V]; [lia|]. cbn [Nat.add] in V.
      rewrite (E (s n) eq_refl). rewrite V. reflexivity.
  - intros T. split.
    + unfold nt. cbn [status read_notice]. fold b. apply or_falsy, T.
    + apply (resume_ready_completed cfg req s n K U). fold b. apply or_falsy, T.
Qed.

Lemma resume_ready_failure_notice_witness :
  resume_ready cfg0 (post (Some "s3cret") failed_notice) all_fine 0 =
    mkRun (Ok (res_json ok_true))
          [Call (SendMessage (VNum "5") (generation_failed_text "J2"))
                (Resolved (VObj []))]
          1.
Proof.
  apply (resume_ready_failure_notice
           cfg0 (post (Some "s3cret") failed_notice) all_fine 0);
    try reflexivity.
  - split; [reflexivity | discriminate].
  - discriminate.
  - intros i _. exists (VObj []). reflexivity.
Defined.

(** *** [/admin/resend] *)

(** C8: on an [/admin/resend] request with the backend secret and a [userId]:
    with neither [tgPdfId] nor [pdfUrl] the answer is 400
    [{error: "no file provided"}] and nothing is sent; otherwise exactly one
    document is sent, [tgPdfId] if there is one and [pdfUrl] if not, with the
    caption of the request or "Resent resume", and nothing else: the answer is
    200 [{ok: true}] when the send resolves and 500 [{error: "failed"}] when
    it is rejected, without any message to the user about the failure. *)
Theorem admin_resend_document_only
        (cfg : config) (req : request) (s : script) (n : nat) :
  valid_key cfg req ->
  truthy (field "userId" (body req)) = true ->
  let b := body req in
  let uid := field "userId" b in
  let doc := if truthy (field "tgPdfId" b) then field "tgPdfId" b else field "pdfUrl" b in
  let caption := or (field "caption" b) (VStr "Resent resume") in
  let r := admin_resend cfg req s n in
  (truthy (field "tgPdfId" b) = false -> truthy (field "pdfUrl" b) = false ->
     r = mkRun (Ok (status_json 400 (error_body "no file provided"))) [] n)
  /\ (truthy (field "tgPdfId" b) = true \/ truthy (field "pdfUrl" b) = true ->
     calls (events r) = [SendDocument uid doc caption]
     /\ (forall v, s n = Resolved v ->
         r = mkRun (Ok (res_json ok_true))
                   [Call (SendDocument uid doc caption) (Resolved v)] (S n))
     /\ (forall e, s n = Rejected e ->
         r = mkRun (Ok (status_json 500 (error_body "failed")))
                   [Call (SendDocument uid doc caption) (Rejected e);
                    Console Error [VStr "admin resend error"; e]]
                   (S n)))
  /\ (truthy (field "caption" b) = false -> caption = VStr "Resent resume").
Proof.
  intros K U b uid doc caption r.
  assert (E : r =
    try_catch
      (if truthy (field "tgPdfId" b) then
         perform (SendDocument uid (field "tgPdfId" b) caption) ;; ret (res_json ok_true)
       else if truthy (field "pdfUrl" b) then
         perform (SendDocument uid (field "pdfUrl" b) caption) ;; ret (res_json ok_true)
       else ret (status_json 400 (error_body "no file provided")))
      (fun err =>
         console Error [VStr "admin resend error"; err] ;;
         ret (status_json 500 (error_body "failed"))) s n).
  { unfold r, admin_resend. rewrite (key_accepted _ _ K).
    rewrite (truthy_field_object _ _ U). fold b. fold uid.
    unfold uid, b. rewrite U. reflexivity. }
  rewrite E. clear E. split; [|split].
  - intros Tg Tp. rewrite Tg, Tp. reflexivity.
  - intros T. unfold doc.
    assert (D : forall d, d = (if truthy (field "tgPdfId" b)
                               then field "tgPdfId" b else field "pdfUrl" b) ->
              try_catch
                (if truthy (field "tgPdfId" b) then
                   perform (SendDocument uid (field "tgPdfId" b) caption) ;;
                   ret (res_json ok_true)
                 else if truthy (field "pdfUrl" b) then
                   perform (SendDocument uid (field "pdfUrl" b) caption) ;;
                   ret (res_json ok_true)
                 else ret (status_json 400 (error_body "no file provided")))
                (fun err =>
                   console Error [VStr "admin resend error"; err] ;;
                   ret (status_json 500 (error_body "failed"))) s n
              = try_catch
                  (perform (SendDocument uid d caption) ;; ret (res_json ok_true))
                  (fun err =>
                     console Error [VStr "admin resend error"; err] ;;
                     ret (status_json 500 (error_body "failed"))) s n).
    { intros d ->. destruct (truthy (field "tgPdfId" b)); [reflexivity|].
      destruct T as [T|T]; [discriminate T | rewrite T; reflexivity]. }
    rewrite (D _ eq_refl). clear D. js_step.
    split; [|split].
    + destruct (s n); reflexivity.
    + intros v ->. reflexivity.
    + intros e ->. reflexivity.
  - intros C. apply or_falsy, C.
Qed.

Lemma admin_resend_document_only_witness :
  admin_resend cfg0 (post (Some "s3cret") resend_request) (fails_at 0) 0 =
    mkRun (Ok (status_json 500 (error_body "failed")))
          [Call (SendDocument (VNum "5") (VStr "FILE1") (VStr "Resent resume"))
                (Rejected (VObj [("message", VStr "ETELEGRAM")]));
           Console Error [VStr "admin resend error";
                          VObj [("message", VStr "ETELEGRAM")]]]
          1.
Proof.
  apply (admin_resend_document_only
           cfg0 (post (Some "s3cret") resend_request) (fails_at 0) 0);
    try reflexivity.
  - split; [reflexivity | discriminate].
  - left. reflexivity.
Defined.

(** *** [/tg-webhook] *)

(** C9: when the webhook secret is configured, a [/tg-webhook] request whose
    secret-token header is missing or is not that secret is answered 401 and
    its update is not processed; when no secret is configured, the header is
    not looked at: the update of every request is processed, and the answer is
    200, or 500 when processing throws. *)
Theorem tg_webhook_secret_check
        (cfg : config) (req : request) (s : script) (n : nat) :
  let secret := TELEGRAM_WEBHOOK_SECRET cfg in
  let r := tg_webhook cfg req s n in
  (secret <> "" ->
   req_get req "x-telegram-bot-api-secret-token" <> Some secret ->
     r = mkRun (Ok (sendStatus 401))
               [Console Warn [VStr "Invalid telegram webhook secret token from";
                              VStr (ip req)]]
               n
     /\ calls (events r) = [])
  /\ (secret = "" ->
      calls (events r) = [ProcessUpdate (body req)]
      /\ (forall v, s n = Resolved v ->
          r = mkRun (Ok (sendStatus 200))
                    [Call (ProcessUpdate (body req)) (Resolved v)] (S n))
      /\ (forall e, s n = Rejected e ->
          r = mkRun (Ok (sendStatus 500))
                    [Call (ProcessUpdate (body req)) (Rejected e);
                     Console Error [VStr "Error processing /tg-webhook:"; e]]
                    (S n))).
Proof.
  intros secret r. unfold r, tg_webhook. fold secret. split.
  - intros S H. apply String.eqb_neq in S. rewrite S. cbn [negb].
    assert (B : (header_or_empty req "x-telegram-bot-api-secret-token" =? "")
                || negb (header_or_empty req "x-telegram-bot-api-secret-token"
                         =? secret) = true).
    { unfold header_or_empty.
      destruct (req_get req "x-telegram-bot-api-secret-token") as [h|];
        [|reflexivity].
      destruct (String.eqb_spec h secret) as [->|N];
        [congruence | apply orb_true_r]. }
    rewrite B. js_step. split; reflexivity.
  - intros ->. cbn [String.eqb negb]. js_step.
    split; [|split].
    + destruct (s n); reflexivity.
    + intros v ->. reflexivity.
    + intros e ->. reflexivity.
Qed.

Lemma tg_webhook_secret_check_witness :
  tg_webhook cfg0 (post None (VObj [("update_id", VNum "1")])) all_fine 0 =
    mkRun (Ok (sendStatus 401))
          [Console Warn [VStr "Invalid telegram webhook secret token from";
                         VStr "10.0.0.7"]]
          0
  /\ tg_webhook cfg_open (post None (VObj [("update_id", VNum "1")])) all_fine 0 =
    mkRun (Ok (sendStatus 200))
          [Call (ProcessUpdate (VObj [("update_id", VNum "1")])) (Resolved (VObj []))]
          1.
Proof.
  split.
  - apply (tg_webhook_secret_check
             cfg0 (post None (VObj [("update_id", VNum "1")])) all_fine 0);
      discriminate.
  - apply (tg_webhook_secret_check
             cfg_open (post None (VObj [("update_id", VNum "1")])) all_fine 0);
      reflexivity.
Defined.

(** ** Further properties of the handlers *)

(** Every path of [/resume-ready], outcome by outcome. *)
Ltac resume_ready_paths cfg req s n :=
  unfold resume_ready; unfold try_catch at 1;
  destruct ((header_or_empty req "x-api-key" =? "")
            || negb (header_or_empty req "x-api-key" =? BACKEND_SECRET cfg));
  [ js_step
  | cbn [userId status read_notice]; rewrite ?field_or_empty;
    destruct (truthy (field "userId" (body req))); cbn [negb];
    [ destruct (strict_eq (or (field "status" (body req)) (VStr "completed"))
                          (VStr "completed")); cbn [negb];
      [ unfold try_catch, deliver; open_texts;
        destruct (truthy (tgPdfId (read_notice (or (body req) (VObj []))))),
                 (truthy (pdfUrl (read_notice (or (body req) (VObj []))))),
                 (truthy (hrEmail (read_notice (or (body req) (VObj []))))),
                 (truthy (jobId (read_notice (or (body req) (VObj [])))));
        case_prints; walk s n
      | case_prints; js_step; try case_outcome s n ]
    | js_step ] ].

(** X1: whatever the request and whatever the platform does, [/resume-ready]
    answers: it never throws, and its status is 200, 400, 403 or 500. *)
Theorem resume_ready_always_answers
        (cfg : config) (req : request) (s : script) (n : nat) :
  exists resp,
    answer (resume_ready cfg req s n) = Ok resp
    /\ In (statusCode resp) [200; 400; 403; 500]%Z.
Proof.
  resume_ready_paths cfg req s n;
    (eexists; split; [reflexivity | cbn; tauto]).
Qed.

(** X2: [/resume-ready] only ever talks to the chat of the notice: each of
    its external calls is a send to the [userId] of the body, there are at
    most four of them, and at most one is a document. *)
Theorem resume_ready_recipient
        (cfg : config) (req : request) (s : script) (n : nat) :
  let cs := calls (events (resume_ready cfg req s n)) in
  Forall (sent_to (field "userId" (body req))) cs
  /\ (length cs <= 4)%nat
  /\ (length (filter is_document cs) <= 1)%nat.
Proof.
  cbv zeta.
  resume_ready_paths cfg req s n;
    cbn [userId read_notice]; rewrite ?field_or_empty;
    (split; [repeat constructor | split; cbn; lia]).
Qed.

(** X3: when the send of the failure message itself is rejected, the outer
    [catch] takes it: the handler logs the error and answers 500
    [{error: "internal error"}]; unlike a failed delivery, it sends the user
    no notice. *)
Theorem resume_ready_failure_send_rejected
        (cfg : config) (req : request) (s : script) (n : nat)
        (text : string) (e : value) :
  valid_key cfg req ->
  truthy (field "userId" (body req)) = true ->
  truthy (field "status" (body req)) = true ->
  field "status" (body req) <> VStr "completed" ->
  failure_text (jobId (read_notice (body req))) = Some text ->
  s n = Rejected e ->
  resume_ready cfg req s n =
    mkRun (Ok (status_json 500 (error_body "internal error")))
          [Call (SendMessage (field "userId" (body req)) text) (Rejected e);
           Console Error [VStr "Error in /resume-ready:"; e]]
          (S n).
Proof.
  intros K U T N F R.
  rewrite (resume_ready_failed cfg req s n K U T N). cbv zeta.
  rewrite F. js_step. rewrite R. reflexivity.
Qed.

Lemma resume_ready_failure_send_rejected_witness :
  resume_ready cfg0 (post (Some "s3cret") failed_notice) (fails_at 0) 0 =
    mkRun (Ok (status_json 500 (error_body "internal error")))
          [Call (SendMessage (VNum "5") (generation_failed_text "J2"))
                (Rejected (VObj [("message", VStr "ETELEGRAM")]));
           Console Error [VStr "Error in /resume-ready:";
                          VObj [("message", VStr "ETELEGRAM")]]]
          1.
Proof.
  apply (resume_ready_failure_send_rejected
           cfg0 (post (Some "s3cret") failed_notice) (fails_at 0) 0
           (generation_failed_text "J2")
           (VObj [("message", VStr "ETELEGRAM")])); try reflexivity.
  - split; [reflexivity | discriminate].
  - discriminate.
Defined.

(** X4: on a completed notice, an HR contact -- [hrEmail], or [hr_contact]
    when [hrEmail] is missing -- that a template literal prints as [hr] is
    sent as a message of its own right after the first send has resolved,
    whichever that first send was: the document by file identifier, the
    document by URL, or the apology for the missing file. *)
Theorem resume_ready_hr_contact_follows
        (cfg : config) (req : request) (s : script) (n : nat)
        (hr : string) (v : value) :
  valid_key cfg req ->
  truthy (field "userId" (body req)) = true ->
  or (field "status" (body req)) (VStr "completed") = VStr "completed" ->
  let contact := or (field "hrEmail" (body req)) (field "hr_contact" (body req)) in
  truthy contact = true ->
  to_string contact = Some hr ->
  s n = Resolved v ->
  exists first rest,
    calls (events (resume_ready cfg req s n)) =
      first :: SendMessage (field "userId" (body req)) (hr_contact_text hr) :: rest.
Proof.
  intros K U St contact H P R.
  rewrite (resume_ready_completed cfg req s n K U St).
  unfold try_catch, deliver. open_texts.
  assert (E : hrEmail (read_notice (body req)) = contact)
    by (cbn [hrEmail read_notice]; apply or_truthy, H).
  rewrite E, H, P. cbn [option_map].
  change (userId (read_notice (body req))) with (field "userId" (body req)).
  destruct (truthy (tgPdfId (read_notice (body req)))),
           (truthy (pdfUrl (read_notice (body req)))),
           (truthy (jobId (read_notice (body req))));
    case_prints; js_step; rewrite R; cbn [app];
    case_outcome s (S n); try case_outcome s (S (S n));
    rewrite ?delivery_failed_run; unfold after; cbn [app events];
    eexists _, _; reflexivity.
Qed.

Lemma resume_ready_hr_contact_follows_witness :
  exists first rest,
    calls (events (resume_ready cfg0 (post (Some "s3cret") bare_notice) all_fine 0)) =
      first :: SendMessage (VNum "5") (hr_contact_text "hr@x.com") :: rest.
Proof.
  apply (resume_ready_hr_contact_follows
           cfg0 (post (Some "s3cret") bare_notice) all_fine 0 "hr@x.com" (VObj []));
    try reflexivity.
  split; [reflexivity | discriminate].
Defined.

(** X23: on a completed notice that names a document, an HR contact that no
    template literal can print (an object with a [toString] key of its own,
    or an array holding one) stops the delivery before any send: the
    [TypeError] is logged, the user is sent the notice of the failed delivery,
    and the answer is 500 [{error: "failed to deliver resume"}]. *)
Theorem resume_ready_unprintable_contact
        (cfg : config) (req : request) (s : script) (n : nat) :
  valid_key cfg req ->
  truthy (field "userId" (body req)) = true ->
  or (field "status" (body req)) (VStr "completed") = VStr "completed" ->
  truthy (field "tg_pdf_id" (body req)) = true
  \/ truthy (field "pdf_url" (body req)) = true ->
  let contact := or (field "hrEmail" (body req)) (field "hr_contact" (body req)) in
  truthy contact = true ->
  to_string contact = None ->
  resume_ready cfg req s n =
    mkRun (Ok (status_json 500 (error_body "failed to deliver resume")))
          [Console Error [VStr "Error sending document to user";
                          field "userId" (body req); TypeError];
           Call (SendMessage (field "userId" (body req)) DELIVERY_FAILED_TEXT) (s n)]
          (S n).
Proof.
  intros K U St D contact H P.
  rewrite (resume_ready_completed cfg req s n K U St).
  set (b := body req). set (nt := read_notice b).
  assert (E : hrEmail nt = contact)
    by (unfold nt; cbn [hrEmail read_notice]; apply or_truthy, H).
  assert (C : caption_text (hrEmail nt) = None)
    by (unfold caption_text; rewrite E, H, P; reflexivity).
  assert (Doc : exists doc,
            (truthy (tgPdfId nt) = true /\ doc = tgPdfId nt)
            \/ (truthy (tgPdfId nt) = false /\ truthy (pdfUrl nt) = true
                /\ doc = pdfUrl nt)).
  { destruct (truthy (tgPdfId nt)) eqn:Tg.
    - eexists. left. split; reflexivity.
    - eexists. right. split; [reflexivity|]. split; [|reflexivity].
      unfold nt in Tg. rewrite truthy_tgPdfId in Tg. fold b in Tg.
      destruct D as [D|D]; [unfold b in Tg; congruence|].
      unfold nt. cbn [pdfUrl read_notice]. rewrite truthy_or_null. exact D. }
  destruct Doc as [doc Doc].
  exact (proj2 (delivery_with_document b nt s n doc Doc) C).
Qed.

Lemma resume_ready_unprintable_contact_witness :
  resume_ready cfg0 (post (Some "s3cret") unprintable_contact_notice) all_fine 0 =
    mkRun (Ok (status_json 500 (error_body "failed to deliver resume")))
          [Console Error [VStr "Error sending document to user";
                          VNum "532287234"; TypeError];
           Call (SendMessage (VNum "532287234") DELIVERY_FAILED_TEXT)
                (Resolved (VObj []))]
          1.
Proof.
  apply (resume_ready_unprintable_contact
           cfg0 (post (Some "s3cret") unprintable_contact_notice) all_fine 0);
    try reflexivity.
  - split; [reflexivity | discriminate].
  - left. reflexivity.
Defined.

(** X24: on a notice of failure (a truthy status other than "completed"), a
    [jobId] that no template literal can print leaves the failure message
    unbuilt: nothing is sent, the [TypeError] is logged by the outer [catch]
    and the answer is 500 [{error: "internal error"}]. *)
Theorem resume_ready_unprintable_job_id
        (cfg : config) (req : request) (s : script) (n : nat) :
  valid_key cfg req ->
  truthy (field "userId" (body req)) = true ->
  truthy (field "status" (body req)) = true ->
  field "status" (body req) <> VStr "completed" ->
  to_string (field "jobId" (body req)) = None ->
  resume_ready cfg req s n =
    mkRun (Ok (status_json 500 (error_body "internal error")))
          [Console Error [VStr "Error in /resume-ready:"; TypeError]]
          n.
Proof.
  intros K U T N P.
  rewrite (resume_ready_failed cfg req s n K U T N). cbv zeta.
  assert (J : truthy (field "jobId" (body req)) = true).
  { destruct (field "jobId" (body req)) as [| | [] | | | |p];
      try discriminate P; reflexivity. }
  unfold failure_text. cbn [jobId read_notice].
  rewrite (or_truthy _ VNull J), (or_truthy _ (VStr "") J), P.
  reflexivity.
Qed.

Lemma resume_ready_unprintable_job_id_witness :
  resume_ready cfg0 (post (Some "s3cret") unprintable_job_notice) all_fine 0 =
    mkRun (Ok (status_json 500 (error_body "internal error")))
          [Console Error [VStr "Error in /resume-ready:"; TypeError]]
          0.
Proof.
  apply (resume_ready_unprintable_job_id
           cfg0 (post (Some "s3cret") unprintable_job_notice) all_fine 0);
    try reflexivity.
  - split; [reflexivity | discriminate].
  - discriminate.
Defined.

(** *** The message listener, path by path *)

(** The detached submission, whatever the backend and the platform do: it
    starts with the POST, and sends the chat at most the one notice that the
    submission failed. *)
Lemma submit_job_shape (cfg : config) (chatId uid username : value) (jd : string)
      (s : script) (n : nat) :
  exists rest n',
    detached (submit_job cfg chatId uid username jd) s n =
      mkRun (Ok tt)
            (Call (AxiosPost (apply_url cfg) (job_submission chatId uid username jd)
                             (BACKEND_SECRET cfg) 10000) (s n) :: rest)
            n'
    /\ (calls rest = [] \/ calls rest = [SendMessage chatId SUBMIT_FAILED_TEXT])
    /\ (rejects_with_errors s -> unhandled rest = []).
Proof.
  unfold submit_job, member, TypeError. js_step.
  destruct (s n) as [resp|err] eqn:O; cbn [app].
  - destruct (truthy resp && truthy (field "data" resp)
              && truthy (field "jobId" (field "data" resp))).
    + eexists _, _. split; [reflexivity|]. split; [left; reflexivity | reflexivity].
    + destruct resp; cbn [app];
        try (eexists _, _; split; [reflexivity|];
             split; [left; reflexivity | reflexivity]);
        destruct (s (S n)); cbn [app]; eexists _, _;
        (split; [reflexivity|]; split; [right; reflexivity | reflexivity]).
  - destruct err; cbn [app];
      try (destruct (s (S n)); cbn [app]; eexists _, _;
           (split; [reflexivity|]; split; [right; reflexivity | reflexivity]));
      (eexists _, _; split; [reflexivity|]; split; [left; reflexivity|];
       intros R; apply R in O; discriminate O).
Qed.

(** The listener past its guards, on a text [t] already read from the
    message. *)
Ltac listener_steps :=
  unfold bind, try_catch, after, perform, console, ret, throw;
  cbn [answer events asked app].

Lemma try_catch_bind_ret {A B} (a : A) (k : A -> M B) (h : value -> M B)
      (s : script) (n : nat) :
  try_catch (bind (ret a) k) h s n = try_catch (k a) h s n.
Proof. unfold try_catch. rewrite bind_ret. reflexivity. Qed.

Ltac shape_done pick :=
  split; [reflexivity | split; [intros _; reflexivity | pick; reflexivity]].

(** Every path of the listener: what it answers and which calls it makes. *)
Lemma on_message_shape (cfg : config) (msg : value) (s : script) (n : nat) :
  let chatId := field "id" (field "chat" msg) in
  let uid := field "id" (field "from" msg) in
  let username := or (field "username" (field "from" msg)) (VStr "") in
  let r := on_message cfg msg s n in
  answer r = Ok tt
  /\ (rejects_with_errors s -> unhandled (events r) = [])
  /\ (calls (events r) = []
      \/ calls (events r) = [SendMessage chatId PROMPT_TEXT]
      \/ calls (events r) = [SendMessage chatId USAGE_TEXT]
      \/ calls (events r) = [SendMessage chatId ACK_TEXT]
      \/ exists jd,
           jd <> "" /\
           let submit := AxiosPost (apply_url cfg) (job_submission chatId uid username jd)
                                   (BACKEND_SECRET cfg) 10000 in
           (calls (events r) = [SendMessage chatId ACK_TEXT; submit]
            \/ calls (events r) = [SendMessage chatId ACK_TEXT; submit;
                                   SendMessage chatId SUBMIT_FAILED_TEXT])).
Proof.
  intros chatId uid username r. subst r. unfold on_message.
  fold chatId uid username.
  destruct (negb (truthy msg) || negb (truthy (field "from" msg))
            || negb (truthy (field "chat" msg))).
  { listener_steps. shape_done ltac:(left). }
  assert (Run : forall jd, jd <> "" ->
    let r := try_catch
               (perform (SendMessage chatId ACK_TEXT) ;;
                detached (submit_job cfg chatId uid username jd))
               (fun err => console Error [VStr "Error in message handler:"; err]) s n in
    answer r = Ok tt
    /\ (rejects_with_errors s -> unhandled (events r) = [])
    /\ (calls (events r) = [SendMessage chatId ACK_TEXT]
        \/ let submit := AxiosPost (apply_url cfg)
                           (job_submission chatId uid username jd)
                           (BACKEND_SECRET cfg) 10000 in
           (calls (events r) = [SendMessage chatId ACK_TEXT; submit]
            \/ calls (events r) = [SendMessage chatId ACK_TEXT; submit;
                                   SendMessage chatId SUBMIT_FAILED_TEXT]))).
  { intros jd _. cbv zeta.
    destruct (submit_job_shape cfg chatId uid username jd s (S n))
      as [rest [n' [E [C U]]]].
    listener_steps. destruct (s n) as [v|e]; cbn [app].
    - rewrite E. cbn [app answer events calls unhandled].
      split; [reflexivity|]. split; [exact U|].
      right. destruct C as [C|C]; rewrite C; [left | right]; reflexivity.
    - shape_done ltac:(left). }
  destruct (or (field "text" msg) (VStr "")) as [| | | |t| |];
    cbn [call_trim];
    try (listener_steps; shape_done ltac:(left)).
  rewrite try_catch_bind_ret. cbv beta zeta.
  destruct (Str.trim t =? "") eqn:T0.
  { listener_steps. destruct (s n); cbn [app]; shape_done ltac:(right; left). }
  destruct (Str.startsWith "/apply" (Str.trim t)).
  - destruct (Str.trim (Str.replace "/apply" "" (Str.trim t)) =? "") eqn:J.
    + listener_steps. destruct (s n); cbn [app];
        shape_done ltac:(right; right; left).
    + apply String.eqb_neq in J.
      destruct (Run _ J) as [A [U C]]. split; [exact A|]. split; [exact U|].
      destruct C as [C|C]; [tauto|].
      right. right. right. right. eexists. split; [exact J | exact C].
  - apply String.eqb_neq in T0.
    destruct (Run _ T0) as [A [U C]]. split; [exact A|]. split; [exact U|].
    destruct C as [C|C]; [tauto|].
    right. right. right. right. eexists. split; [exact T0 | exact C].
Qed.

(** X6: the listener never rejects, whatever the message and whatever the
    platform and the backend do; it makes at most one POST to the backend and
    at most three calls in all, and every message it sends goes to the chat
    of the message. *)
Theorem on_message_never_throws
        (cfg : config) (msg : value) (s : script) (n : nat) :
  let r := on_message cfg msg s n in
  let cs := calls (events r) in
  answer r = Ok tt
  /\ (length (filter is_backend_call cs) <= 1)%nat
  /\ (length cs <= 3)%nat
  /\ Forall (fun c => sent_to (field "id" (field "chat" msg)) c
                      \/ is_backend_call c = true) cs.
Proof.
  destruct (on_message_shape cfg msg s n) as [A [_ C]].
  cbv zeta in *. split; [exact A|].
  destruct C as [C | [C | [C | [C | [jd [_ [C | C]]]]]]]; rewrite C;
    (split; [cbn; lia | split; [cbn; lia|]]);
    repeat constructor; (left; reflexivity) || (right; reflexivity).
Qed.

(** X7: when the rejections of the platform and of the backend carry an error
    value (not [undefined] or [null]), the detached submission leaves no
    rejection unhandled. *)
Theorem on_message_no_unhandled_rejection
        (cfg : config) (msg : value) (s : script) (n : nat) :
  rejects_with_errors s ->
  unhandled (events (on_message cfg msg s n)) = [].
Proof.
  intros R. destruct (on_message_shape cfg msg s n) as [_ [U _]].
  exact (U R).
Qed.

Lemma on_message_no_unhandled_rejection_witness :
  unhandled (events (on_message cfg0 (chat_message "/apply backend dev") (fails_at 1) 0))
  = [].
Proof.
  apply (on_message_no_unhandled_rejection
           cfg0 (chat_message "/apply backend dev") (fails_at 1) 0).
  intros i e. unfold fails_at. destruct (i =? 1)%nat; intros H.
  - injection H as <-. reflexivity.
  - discriminate H.
Defined.

(** X8: an update without a sender or without a chat is dropped in silence:
    nothing is sent, nothing is logged, nothing is posted to the backend. *)
Theorem on_message_without_sender_or_chat
        (cfg : config) (msg : value) (s : script) (n : nat) :
  truthy (field "from" msg) = false \/ truthy (field "chat" msg) = false ->
  on_message cfg msg s n = mkRun (Ok tt) [] n.
Proof.
  intros H. unfold on_message.
  assert (G : negb (truthy msg) || negb (truthy (field "from" msg))
              || negb (truthy (field "chat" msg)) = true).
  { destruct H as [H|H]; rewrite H; cbn [negb]; rewrite ?orb_true_r; reflexivity. }
  rewrite G. reflexivity.
Qed.

Lemma on_message_without_sender_or_chat_witness :
  on_message cfg0 (VObj [("chat", VObj [("id", VNum "7")]); ("text", VStr "hello")])
             all_fine 0
  = mkRun (Ok tt) [] 0.
Proof.
  apply (on_message_without_sender_or_chat
           cfg0 (VObj [("chat", VObj [("id", VNum "7")]); ("text", VStr "hello")])
           all_fine 0).
  left. reflexivity.
Defined.

Lemma guards_passed (msg : value) :
  truthy (field "from" msg) = true ->
  truthy (field "chat" msg) = true ->
  negb (truthy msg) || negb (truthy (field "from" msg))
  || negb (truthy (field "chat" msg)) = false.
Proof.
  intros F C. rewrite F, C.
  destruct msg; try discriminate F. reflexivity.
Qed.

(** The run of the listener on a text that is empty once trimmed. *)
Lemma on_message_prompt_run
        (cfg : config) (msg : value) (t : string) (s : script) (n : nat) :
  truthy (field "from" msg) = true ->
  truthy (field "chat" msg) = true ->
  or (field "text" msg) (VStr "") = VStr t ->
  Str.trim t = "" ->
  let prompt := SendMessage (field "id" (field "chat" msg)) PROMPT_TEXT in
  on_message cfg msg s n =
    match s n with
    | Resolved v => mkRun (Ok tt) [Call prompt (Resolved v)] (S n)
    | Rejected e =>
        mkRun (Ok tt)
              [Call prompt (Rejected e);
               Console Error [VStr "Error in message handler:"; e]]
              (S n)
    end.
Proof.
  intros F C T E prompt. unfold on_message.
  rewrite (guards_passed msg F C), T. cbn [call_trim].
  rewrite try_catch_bind_ret. cbv beta zeta. rewrite E. cbn [String.eqb].
  listener_steps. destruct (s n); reflexivity.
Qed.

(** X9: a message with a sender and a chat whose text is missing, is falsy,
    or is empty once trimmed gets the instruction prompt, once, and nothing
    goes to the backend; a rejected prompt is only logged. *)
Theorem on_message_prompts_for_text
        (cfg : config) (msg : value) (t : string) (s : script) (n : nat) :
  truthy (field "from" msg) = true ->
  truthy (field "chat" msg) = true ->
  or (field "text" msg) (VStr "") = VStr t ->
  Str.trim t = "" ->
  let prompt := SendMessage (field "id" (field "chat" msg)) PROMPT_TEXT in
  on_message cfg msg s n =
    match s n with
    | Resolved v => mkRun (Ok tt) [Call prompt (Resolved v)] (S n)
    | Rejected e =>
        mkRun (Ok tt)
              [Call prompt (Rejected e);
               Console Error [VStr "Error in message handler:"; e]]
              (S n)
    end.
Proof.
  intros F C T E. exact (on_message_prompt_run cfg msg t s n F C T E).
Qed.

Lemma on_message_prompts_for_text_witness :
  on_message cfg0
    (VObj [("from", VObj [("id", VNum "5")]); ("chat", VObj [("id", VNum "7")]);
           ("photo", VArr [VObj []])])
    all_fine 0
  = mkRun (Ok tt) [Call (SendMessage (VNum "7") PROMPT_TEXT) (Resolved (VObj []))] 1.
Proof.
  apply (on_message_prompts_for_text
           cfg0
           (VObj [("from", VObj [("id", VNum "5")]); ("chat", VObj [("id", VNum "7")]);
                  ("photo", VArr [VObj []])])
           "" all_fine 0); reflexivity.
Defined.

(** X10: the command alone -- a text that is not empty once trimmed but whose
    job description is -- gets the usage hint, once, and nothing goes to the
    backend. *)
Theorem on_message_usage_hint
        (cfg : config) (msg : value) (t : string) (s : script) (n : nat) :
  truthy (field "from" msg) = true ->
  truthy (field "chat" msg) = true ->
  field "text" msg = VStr t ->
  Str.trim t <> "" ->
  job_description t = "" ->
  let hint := SendMessage (field "id" (field "chat" msg)) USAGE_TEXT in
  on_message cfg msg s n =
    match s n with
    | Resolved v => mkRun (Ok tt) [Call hint (Resolved v)] (S n)
    | Rejected e =>
        mkRun (Ok tt)
              [Call hint (Rejected e);
               Console Error [VStr "Error in message handler:"; e]]
              (S n)
    end.
Proof.
  intros F C T N J hint. unfold on_message.
  rewrite (guards_passed msg F C), T, or_text. cbn [call_trim].
  rewrite try_catch_bind_ret. cbv beta zeta.
  apply String.eqb_neq in N. rewrite N.
  unfold job_description in J.
  destruct (Str.startsWith "/apply" (Str.trim t)).
  - rewrite J. cbn [String.eqb]. listener_steps. destruct (s n); reflexivity.
  - apply String.eqb_neq in N. contradiction.
Qed.

Lemma on_message_usage_hint_witness :
  on_message cfg0 (chat_message "  /apply
 ") (fails_at 0) 0
  = mkRun (Ok tt)
          [Call (SendMessage (VNum "7") USAGE_TEXT)
                (Rejected (VObj [("message", VStr "ETELEGRAM")]));
           Console Error [VStr "Error in message handler:";
                          VObj [("message", VStr "ETELEGRAM")]]]
          1.
Proof.
  apply (on_message_usage_hint cfg0 (chat_message "  /apply
 ") "  /apply
 " (fails_at 0) 0); try reflexivity.
  vm_compute. discriminate.
Defined.

(** X11: a text that is truthy and is not a string has no [trim]: the
    [TypeError] is caught and logged; nothing is sent and nothing goes to the
    backend. *)
Theorem on_message_text_not_a_string
        (cfg : config) (msg : value) (s : script) (n : nat) :
  truthy (field "from" msg) = true ->
  truthy (field "chat" msg) = true ->
  truthy (field "text" msg) = true ->
  (forall t, field "text" msg <> VStr t) ->
  on_message cfg msg s n =
    mkRun (Ok tt) [Console Error [VStr "Error in message handler:"; TypeError]] n.
Proof.
  intros F C T N. unfold on_message.
  rewrite (guards_passed msg F C), (or_truthy _ _ T).
  destruct (field "text" msg) as [| | | |t| |]; try discriminate T;
    try reflexivity.
  exfalso. exact (N t eq_refl).
Qed.

Lemma on_message_text_not_a_string_witness :
  on_message cfg0
    (VObj [("from", VObj [("id", VNum "5")]); ("chat", VObj [("id", VNum "7")]);
           ("text", VNum "42")])
    all_fine 0
  = mkRun (Ok tt) [Console Error [VStr "Error in message handler:"; TypeError]] 0.
Proof.
  apply (on_message_text_not_a_string
           cfg0
           (VObj [("from", VObj [("id", VNum "5")]); ("chat", VObj [("id", VNum "7")]);
                  ("text", VNum "42")])
           all_fine 0); try reflexivity.
  intros t. discriminate.
Defined.

Lemma detached_answer (body : M unit) (s : script) (n : nat) :
  answer (detached body s n) = Ok tt.
Proof. unfold detached. destruct (body s n) as [[a|e] es n']; reflexivity. Qed.

(** Past its guards, and once the acknowledgement has resolved, the run of
    the listener is the acknowledgement followed by the detached
    submission. *)
Lemma on_message_submits (cfg : config) (msg : value) (t : string)
      (s : script) (n : nat) (v : value) :
  truthy (field "from" msg) = true ->
  truthy (field "chat" msg) = true ->
  field "text" msg = VStr t ->
  job_description t <> "" ->
  s n = Resolved v ->
  let chatId := field "id" (field "chat" msg) in
  let uid := field "id" (field "from" msg) in
  let username := or (field "username" (field "from" msg)) (VStr "") in
  on_message cfg msg s n =
    after [Call (SendMessage chatId ACK_TEXT) (Resolved v)]
          (detached (submit_job cfg chatId uid username (job_description t)) s (S n)).
Proof.
  intros F C T J R chatId uid username. unfold on_message.
  rewrite (guards_passed msg F C), T, or_text. cbn [call_trim].
  rewrite try_catch_bind_ret. cbv beta zeta.
  rewrite (job_description_trimmed t J).
  fold chatId uid username.
  assert (Run : forall jd,
    try_catch
      (perform (SendMessage chatId ACK_TEXT) ;;
       detached (submit_job cfg chatId uid username jd))
      (fun err => console Error [VStr "Error in message handler:"; err]) s n
    = after [Call (SendMessage chatId ACK_TEXT) (Resolved v)]
            (detached (submit_job cfg chatId uid username jd) s (S n))).
  { intros jd. unfold try_catch, bind, perform. rewrite R.
    pose proof (detached_answer (submit_job cfg chatId uid username jd) s (S n)) as A.
    destruct (detached (submit_job cfg chatId uid username jd) s (S n))
      as [a es n']. cbn [answer] in A. subst a. reflexivity. }
  unfold job_description in *.
  destruct (Str.startsWith "/apply" (Str.trim t)).
  - apply String.eqb_neq in J. rewrite J. apply Run.
  - apply Run.
Qed.

(** X12: when the POST to the backend is rejected (network error, timeout,
    status outside 2xx), the error is logged and the chat is sent one notice
    that the submission failed; what becomes of that notice changes nothing,
    and the listener still ends normally. *)
Theorem on_message_backend_failure
        (cfg : config) (msg : value) (t : string) (s : script) (n : nat)
        (v err : value) :
  truthy (field "from" msg) = true ->
  truthy (field "chat" msg) = true ->
  field "text" msg = VStr t ->
  job_description t <> "" ->
  s n = Resolved v ->
  s (S n) = Rejected err ->
  is_nullish err = false ->
  let chatId := field "id" (field "chat" msg) in
  let uid := field "id" (field "from" msg) in
  let username := or (field "username" (field "from" msg)) (VStr "") in
  on_message cfg msg s n =
    mkRun (Ok tt)
          [Call (SendMessage chatId ACK_TEXT) (Resolved v);
           Call (AxiosPost (apply_url cfg)
                           (job_submission chatId uid username (job_description t))
                           (BACKEND_SECRET cfg) 10000) (Rejected err);
           Console Error [VStr "Error sending JD to backend:";
                          or (field "message" err) err];
           Call (SendMessage chatId SUBMIT_FAILED_TEXT) (s (S (S n)))]
          (S (S (S n))).
Proof.
  intros F C T J R P N chatId uid username.
  rewrite (on_message_submits cfg msg t s n v F C T J R).
  fold chatId uid username.
  unfold submit_job, member. js_step. rewrite P. cbn [app].
  destruct err; try discriminate N; cbn [app];
    destruct (s (S (S n))); reflexivity.
Qed.

Lemma on_message_backend_failure_witness :
  calls (events (on_message cfg0 (chat_message "backend dev") (fails_at 1) 0)) =
    [SendMessage (VNum "7") ACK_TEXT;
     AxiosPost "https://backend.example.com/apply"
               (job_submission (VNum "7") (VNum "5") (VStr "ann") "backend dev")
               "s3cret" 10000;
     SendMessage (VNum "7") SUBMIT_FAILED_TEXT].
Proof.
  rewrite (on_message_backend_failure
             cfg0 (chat_message "backend dev") "backend dev" (fails_at 1) 0
             (VObj []) (VObj [("message", VStr "ETELEGRAM")]));
    try reflexivity.
  vm_compute. discriminate.
Defined.

(** X13: when the backend accepts the job, the chat hears nothing more: after
    the acknowledgement and the POST the listener only writes one line to the
    console. *)
Theorem on_message_backend_accepts
        (cfg : config) (msg : value) (t : string) (s : script) (n : nat)
        (v resp : value) :
  truthy (field "from" msg) = true ->
  truthy (field "chat" msg) = true ->
  field "text" msg = VStr t ->
  job_description t <> "" ->
  s n = Resolved v ->
  s (S n) = Resolved resp ->
  is_nullish resp = false ->
  let chatId := field "id" (field "chat" msg) in
  let uid := field "id" (field "from" msg) in
  let username := or (field "username" (field "from" msg)) (VStr "") in
  exists line,
    on_message cfg msg s n =
      mkRun (Ok tt)
            [Call (SendMessage chatId ACK_TEXT) (Resolved v);
             Call (AxiosPost (apply_url cfg)
                             (job_submission chatId uid username (job_description t))
                             (BACKEND_SECRET cfg) 10000) (Resolved resp);
             Console Log line]
            (S (S n))
    /\ (truthy (field "jobId" (field "data" resp)) = true ->
        line = [VStr "Backend accepted job"; field "jobId" (field "data" resp);
                VStr "for user"; uid]).
Proof.
  intros F C T J R P N chatId uid username.
  rewrite (on_message_submits cfg msg t s n v F C T J R).
  fold chatId uid username.
  unfold submit_job, member. js_step. rewrite P. cbn [app].
  destruct (truthy (field "jobId" (field "data" resp))) eqn:Tj.
  - assert (Td : truthy (field "data" resp) = true).
    { destruct (field "data" resp); try discriminate Tj; reflexivity. }
    assert (Tr : truthy resp = true).
    { destruct resp; try discriminate Td; reflexivity. }
    rewrite Tr, Td. cbn [andb app]. eexists. split; [reflexivity|].
    intros _. reflexivity.
  - rewrite andb_false_r.
    destruct resp; try discriminate N; cbn [app];
      eexists; (split; [reflexivity | intros H; discriminate H]).
Qed.

Lemma on_message_backend_accepts_witness :
  exists line,
    on_message cfg0 (chat_message "backend dev")
               (fun _ => Resolved (VObj [("data", VObj [("jobId", VStr "J7")])])) 0 =
      mkRun (Ok tt)
            [Call (SendMessage (VNum "7") ACK_TEXT)
                  (Resolved (VObj [("data", VObj [("jobId", VStr "J7")])]));
             Call (AxiosPost (apply_url cfg0)
                     (job_submission (VNum "7") (VNum "5") (VStr "ann") "backend dev")
                     "s3cret" 10000)
                  (Resolved (VObj [("data", VObj [("jobId", VStr "J7")])]));
             Console Log line]
            2
    /\ (true = true ->
        line = [VStr "Backend accepted job"; VStr "J7"; VStr "for user"; VNum "5"]).
Proof.
  apply (on_message_backend_accepts
           cfg0 (chat_message "backend dev") "backend dev"
           (fun _ => Resolved (VObj [("data", VObj [("jobId", VStr "J7")])])) 0
           (VObj [("data", VObj [("jobId", VStr "J7")])])
           (VObj [("data", VObj [("jobId", VStr "J7")])]));
    try reflexivity.
  vm_compute. discriminate.
Defined.

(** *** White space *)

Lemma prefix_empty (s : string) : prefix "" s = true.
Proof. destruct s; reflexivity. Qed.

Lemma leading_space_found (w rest : string) :
  In w Str.white_space ->
  Str.leading_space (w ++ rest) = Some (String.length w)
  /\ Str.skip (String.length w) (w ++ rest) = rest
  /\ (1 <= String.length w)%nat.
Proof.
  unfold Str.white_space. cbn [map In].
  intros H.
  repeat (destruct H as [H|H];
          [subst w; unfold Str.leading_space, Str.startsWith; cbn;
           rewrite prefix_empty; split; [reflexivity | split; [reflexivity | lia]]|]).
  destruct H.
Qed.

Lemma length_append (a b : string) :
  String.length (a ++ b) = (String.length a + String.length b)%nat.
Proof. induction a as [|c a IH]; cbn; [|rewrite IH]; reflexivity. Qed.

Lemma trimStart_all_space (l : list string) :
  Forall (fun w => In w Str.white_space) l ->
  forall fuel, (String.length (concat_strings l) <= fuel)%nat ->
  Str.trimStart_fuel fuel (concat_strings l) = "".
Proof.
  induction 1 as [|w l W _ IH]; intros fuel L.
  - destruct fuel; reflexivity.
  - cbn [concat_strings] in *.
    destruct (leading_space_found w (concat_strings l) W) as [E [K P]].
    rewrite length_append in L.
    destruct fuel as [|fuel]; [lia|].
    cbn [Str.trimStart_fuel]. rewrite E, K. apply IH. lia.
Qed.

Lemma in_white_space (w : string) :
  existsb (String.eqb w) Str.white_space = true -> In w Str.white_space.
Proof.
  intros H. apply existsb_exists in H. destruct H as [x [I E]].
  apply String.eqb_eq in E. subst x. exact I.
Qed.

(** X14: a text made of white space only -- spaces, tabs, line breaks,
    no-break spaces and the other code points [trim] strips, in any number and
    order -- trims to the empty string, so the listener answers it with the
    instruction prompt and posts nothing to the backend. *)
Theorem on_message_white_space_only
        (cfg : config) (msg : value) (t : string) (s : script) (n : nat) :
  truthy (field "from" msg) = true ->
  truthy (field "chat" msg) = true ->
  field "text" msg = VStr t ->
  all_space t ->
  Str.trim t = ""
  /\ calls (events (on_message cfg msg s n)) =
       [SendMessage (field "id" (field "chat" msg)) PROMPT_TEXT].
Proof.
  intros F C T [l [W ->]].
  assert (E : Str.trim (concat_strings l) = "").
  { unfold Str.trim, Str.trimStart.
    rewrite (trimStart_all_space l W _ (le_n _)). reflexivity. }
  split; [exact E|].
  rewrite (on_message_prompt_run cfg msg (concat_strings l) s n F C)
    by (rewrite ?T, ?or_text; auto).
  destruct (s n); reflexivity.
Qed.

Lemma on_message_white_space_only_witness :
  calls (events (on_message cfg0
                   (chat_message (Str.enc [32; 9; 10; 194; 160; 227; 128; 128; 13]))
                   all_fine 0))
  = [SendMessage (VNum "7") PROMPT_TEXT].
Proof.
  apply (on_message_white_space_only
           cfg0 (chat_message (Str.enc [32; 9; 10; 194; 160; 227; 128; 128; 13]))
           (Str.enc [32; 9; 10; 194; 160; 227; 128; 128; 13]) all_fine 0);
    try reflexivity.
  exists [Str.enc [32]; Str.enc [9]; Str.enc [10]; Str.enc [194; 160];
          Str.enc [227; 128; 128]; Str.enc [13]].
  split; [|reflexivity].
  repeat (apply Forall_cons; [apply in_white_space; reflexivity|]).
  apply Forall_nil.
Defined.

(** *** [/tg-webhook], [/admin/resend] and the key *)

(** X15: [/tg-webhook] hands the update to the bot exactly when no webhook
    secret is configured or the secret-token header is that secret; otherwise
    it calls nothing.  Whatever happens it answers, with 200, 401 or 500. *)
Theorem tg_webhook_processes_iff
        (cfg : config) (req : request) (s : script) (n : nat) :
  let secret := TELEGRAM_WEBHOOK_SECRET cfg in
  let r := tg_webhook cfg req s n in
  (calls (events r) = [ProcessUpdate (body req)] <->
   (secret = "" \/ req_get req "x-telegram-bot-api-secret-token" = Some secret))
  /\ (calls (events r) = [] <-> answer r = Ok (sendStatus 401))
  /\ exists resp, answer r = Ok resp /\ In (statusCode resp) [200; 401; 500]%Z.
Proof.
  intros secret r. subst r. unfold tg_webhook, header_or_empty. fold secret.
  destruct (String.eqb_spec secret "") as [S0|S0]; cbn [negb].
  - js_step. destruct (s n); cbn [app];
      (split; [split; [intros _; left; exact S0 | reflexivity]|]);
      (split; [split; intros H; discriminate H|]);
      eexists; (split; [reflexivity | cbn; tauto]).
  - destruct (req_get req "x-telegram-bot-api-secret-token") as [h|].
    + destruct (String.eqb_spec h secret) as [->|N].
      * apply String.eqb_neq in S0. rewrite S0. cbn [orb negb].
        js_step. destruct (s n); cbn [app];
          (split; [split; [intros _; right; reflexivity | reflexivity]|]);
          (split; [split; intros H; discriminate H|]);
          eexists; (split; [reflexivity | cbn; tauto]).
      * rewrite orb_true_r. js_step.
        split; [split; [intros H; discriminate H | intros [H|H]; congruence]|].
        split; [split; reflexivity|].
        eexists; (split; [reflexivity | cbn; tauto]).
    + cbn [String.eqb orb]. js_step.
      split; [split; [intros H; discriminate H | intros [H|H]; congruence]|].
      split; [split; reflexivity|].
      eexists; (split; [reflexivity | cbn; tauto]).
Qed.

(** X16: [/admin/resend] refuses without a trace: a missing, empty or wrong
    key is answered 403, and with the right key a missing [userId] is answered
    400 [{error: "missing userId"}]; in both cases nothing is sent and nothing
    is logged. *)
Theorem admin_resend_refusals
        (cfg : config) (req : request) (s : script) (n : nat) :
  (req_get req "x-api-key" = None \/
   req_get req "x-api-key" = Some "" \/
   req_get req "x-api-key" <> Some (BACKEND_SECRET cfg) ->
   admin_resend cfg req s n = mkRun (Ok (sendStatus 403)) [] n)
  /\ (valid_key cfg req ->
      truthy (field "userId" (body req)) = false ->
      admin_resend cfg req s n =
        mkRun (Ok (status_json 400 (error_body "missing userId"))) [] n).
Proof.
  split.
  - intros K. unfold admin_resend. rewrite (key_refused cfg req K). reflexivity.
  - intros K U. unfold admin_resend. rewrite (key_accepted cfg req K).
    rewrite field_or_empty, U. reflexivity.
Qed.

Lemma admin_resend_refusals_witness :
  admin_resend cfg0 (post None resend_request) all_fine 0 =
    mkRun (Ok (sendStatus 403)) [] 0
  /\ admin_resend cfg0 (post (Some "s3cret") (VObj [("tgPdfId", VStr "FILE1")]))
                  all_fine 0 =
       mkRun (Ok (status_json 400 (error_body "missing userId"))) [] 0.
Proof.
  split.
  - apply (admin_resend_refusals cfg0 (post None resend_request) all_fine 0).
    left. reflexivity.
  - apply (admin_resend_refusals
             cfg0 (post (Some "s3cret") (VObj [("tgPdfId", VStr "FILE1")]))
             all_fine 0).
    + split; [reflexivity | discriminate].
    + reflexivity.
Defined.

(** X17: whatever the request and the platform do, [/admin/resend] answers,
    with 200, 400, 403 or 500; it makes at most one call, the send of one
    document to the [userId] of the body, and never sends a text message. *)
Theorem admin_resend_always_answers
        (cfg : config) (req : request) (s : script) (n : nat) :
  let r := admin_resend cfg req s n in
  (exists resp, answer r = Ok resp /\ In (statusCode resp) [200; 400; 403; 500]%Z)
  /\ (calls (events r) = []
      \/ exists doc caption,
           calls (events r) = [SendDocument (field "userId" (body req)) doc caption]).
Proof.
  cbv zeta. unfold admin_resend.
  destruct ((header_or_empty req "x-api-key" =? "")
            || negb (header_or_empty req "x-api-key" =? BACKEND_SECRET cfg)).
  { split; [eexists; split; [reflexivity | cbn; tauto] | left; reflexivity]. }
  rewrite !field_or_empty.
  destruct (truthy (field "userId" (body req))); cbn [negb].
  2:{ split; [eexists; split; [reflexivity | cbn; tauto] | left; reflexivity]. }
  destruct (truthy (field "tgPdfId" (body req)));
    [|destruct (truthy (field "pdfUrl" (body req)))];
    js_step; try case_outcome s n;
    (split; [eexists; split; [reflexivity | cbn; tauto]|]);
    first [left; reflexivity | right; eexists _, _; reflexivity].
Qed.

(** With the right key, [/resume-ready] never answers 403. *)
Lemma resume_ready_accepted (cfg : config) (req : request) (s : script) (n : nat) :
  valid_key cfg req ->
  answer (resume_ready cfg req s n) <> Ok (sendStatus 403).
Proof.
  intros K. unfold resume_ready. unfold try_catch at 1.
  rewrite (key_accepted cfg req K).
  cbn [userId status read_notice]. rewrite ?field_or_empty.
  destruct (truthy (field "userId" (body req))); cbn [negb].
  - destruct (strict_eq (or (field "status" (body req)) (VStr "completed"))
                        (VStr "completed")); cbn [negb].
    + unfold try_catch, deliver. open_texts.
      destruct (truthy (tgPdfId (read_notice (or (body req) (VObj []))))),
               (truthy (pdfUrl (read_notice (or (body req) (VObj []))))),
               (truthy (hrEmail (read_notice (or (body req) (VObj []))))),
               (truthy (jobId (read_notice (or (body req) (VObj [])))));
        case_prints; walk s n; discriminate.
    + case_prints; js_step; try case_outcome s n; discriminate.
  - js_step. discriminate.
Qed.

Lemma admin_resend_accepted (cfg : config) (req : request) (s : script) (n : nat) :
  valid_key cfg req ->
  answer (admin_resend cfg req s n) <> Ok (sendStatus 403).
Proof.
  intros K. unfold admin_resend. rewrite (key_accepted cfg req K).
  rewrite !field_or_empty.
  destruct (truthy (field "userId" (body req))); cbn [negb]; [|discriminate].
  destruct (truthy (field "tgPdfId" (body req)));
    [|destruct (truthy (field "pdfUrl" (body req)))];
    js_step; try case_outcome s n; discriminate.
Qed.

(** *** Start-up *)

Lemma nonempty_some (o : option string) (x : string) :
  nonempty o = Some x <-> o = Some x /\ x <> "".
Proof.
  unfold nonempty. destruct o as [y|].
  - destruct (String.eqb_spec y "") as [->|N]; split.
    + discriminate.
    + intros [H N]. injection H as <-. contradiction.
    + intros H. injection H as <-. split; [reflexivity | exact N].
    + intros [H _]. exact H.
  - split; [discriminate | intros [H _]; discriminate H].
Qed.

(** X18: the server starts exactly when [TELEGRAM_BOT_TOKEN], [PUBLIC_URL],
    [BACKEND_URL] and [BACKEND_SECRET] are all set and not empty, and it then
    runs with those values, with the webhook secret of the environment or none,
    and with the port of the environment or 3000; otherwise the process exits
    with code 1. *)
Theorem startup_requires_all_four (e : env) :
  (forall st,
     startup e = Started st <->
     (e "TELEGRAM_BOT_TOKEN" = Some (TELEGRAM_BOT_TOKEN st)
      /\ TELEGRAM_BOT_TOKEN st <> "")
     /\ (e "PUBLIC_URL" = Some (PUBLIC_URL st) /\ PUBLIC_URL st <> "")
     /\ (e "BACKEND_URL" = Some (BACKEND_URL (relay st))
         /\ BACKEND_URL (relay st) <> "")
     /\ (e "BACKEND_SECRET" = Some (BACKEND_SECRET (relay st))
         /\ BACKEND_SECRET (relay st) <> "")
     /\ TELEGRAM_WEBHOOK_SECRET (relay st) =
          match nonempty (e "TELEGRAM_WEBHOOK_SECRET") with
          | Some x => x
          | None => ""
          end
     /\ PORT st = match nonempty (e "PORT") with
                  | Some p => VStr p
                  | None => VNum "3000"
                  end)
  /\ (forall code line, startup e = Exit code line -> code = 1%Z).
Proof.
  split.
  - intros [token public port [hook backend secret]].
    cbn [TELEGRAM_BOT_TOKEN PUBLIC_URL PORT relay TELEGRAM_WEBHOOK_SECRET
         BACKEND_URL BACKEND_SECRET].
    rewrite <- !nonempty_some. unfold startup. split.
    + destruct (nonempty (e "TELEGRAM_BOT_TOKEN")); [|discriminate].
      destruct (nonempty (e "PUBLIC_URL")); [|discriminate].
      destruct (nonempty (e "BACKEND_URL")); [|discriminate].
      destruct (nonempty (e "BACKEND_SECRET")); [|discriminate].
      intros H. injection H as <- <- <- <- <- <-. repeat split.
    + intros [-> [-> [-> [-> [-> ->]]]]]. reflexivity.
  - intros code line. unfold startup.
    destruct (nonempty (e "TELEGRAM_BOT_TOKEN")); [|intros H; injection H as <- _; reflexivity].
    destruct (nonempty (e "PUBLIC_URL")); [|intros H; injection H as <- _; reflexivity].
    destruct (nonempty (e "BACKEND_URL")); [|intros H; injection H as <- _; reflexivity].
    destruct (nonempty (e "BACKEND_SECRET")); [|intros H; injection H as <- _; reflexivity].
    discriminate.
Qed.

Lemma started_secret (e : env) (st : settings) :
  startup e = Started st -> BACKEND_SECRET (relay st) <> "".
Proof.
  unfold startup.
  destruct (nonempty (e "TELEGRAM_BOT_TOKEN")); [|discriminate].
  destruct (nonempty (e "PUBLIC_URL")); [|discriminate].
  destruct (nonempty (e "BACKEND_URL")); [|discriminate].
  destruct (nonempty (e "BACKEND_SECRET")) as [x|] eqn:N; [|discriminate].
  intros H. injection H as <-. cbn. apply nonempty_some in N. tauto.
Qed.

(** X19: on a server that has started, the backend secret is the only way
    in: [/resume-ready] and [/admin/resend] answer 403 exactly when the
    [x-api-key] header is not that secret; an empty or missing key never
    passes. *)
Theorem backend_key_is_the_only_way_in
        (e : env) (st : settings) (req : request) (s : script) (n : nat) :
  startup e = Started st ->
  let cfg := relay st in
  (answer (resume_ready cfg req s n) = Ok (sendStatus 403) <->
   req_get req "x-api-key" <> Some (BACKEND_SECRET cfg))
  /\ (answer (admin_resend cfg req s n) = Ok (sendStatus 403) <->
      req_get req "x-api-key" <> Some (BACKEND_SECRET cfg)).
Proof.
  intros S cfg. pose proof (started_secret e st S) as N. fold cfg in N.
  split; split.
  - intros A H. exact (resume_ready_accepted cfg req s n (conj H N) A).
  - intros H. unfold resume_ready. unfold try_catch at 1.
    rewrite (key_refused cfg req (or_intror (or_intror H))). reflexivity.
  - intros A H. exact (admin_resend_accepted cfg req s n (conj H N) A).
  - intros H. unfold admin_resend.
    rewrite (key_refused cfg req (or_intror (or_intror H))). reflexivity.
Qed.

Lemma backend_key_is_the_only_way_in_witness :
  answer (resume_ready (relay settings0) (post (Some "") completed_notice) all_fine 0)
  = Ok (sendStatus 403).
Proof.
  apply (backend_key_is_the_only_way_in
           env0 settings0 (post (Some "") completed_notice) all_fine 0).
  - reflexivity.
  - discriminate.
Defined.

(** *** The registration of the webhook *)

(** X20: [ensureWebhook] makes one request, to the [setWebhook] URL, and
    nothing else but console lines; a failure is not fatal: unless the request
    is rejected with [undefined] or [null] it returns normally; and it reports
    the webhook as registered exactly when the response data says [ok]. *)
Theorem ensureWebhook_not_fatal (st : settings) (o : outcome) :
  let r := ensureWebhook st o in
  (exists lines,
     snd r = Get (setWebhook_url st) o :: map (fun la => BootConsole (fst la) (snd la)) lines
     /\ (length lines <= 1)%nat)
  /\ ((forall e, o = Rejected e -> is_nullish e = false) -> fst r = Ok tt)
  /\ (In (BootConsole Log [VStr "Webhook registered:"; VStr (webhookUrl st)]) (snd r)
      <-> exists res, o = Resolved res
                      /\ truthy (field "ok" (field "data" res)) = true).
Proof.
  cbv zeta. unfold ensureWebhook, TypeError.
  destruct o as [res|err].
  - destruct (truthy (field "ok" (field "data" res))) eqn:Tk.
    + assert (Td : truthy (field "data" res) = true)
        by (destruct (field "data" res); try discriminate Tk; reflexivity).
      assert (Tr : exists p, res = VObj p)
        by (destruct res; try discriminate Td; eexists; reflexivity).
      destruct Tr as [p ->]. rewrite Td. cbn [andb snd fst].
      split; [exists [(Log, [VStr "Webhook registered:"; VStr (webhookUrl st)])];
              split; [reflexivity | cbn; lia]|].
      split; [reflexivity|].
      split; [intros _; eexists; split; [reflexivity | exact Tk]
             | intros _; right; left; reflexivity].
    + rewrite andb_false_r.
      destruct res; cbn [snd fst];
        (split; [eexists [(_, _)]; split; [reflexivity | cbn; lia]|]);
        (split; [reflexivity|]);
        (split; [intros [H|[H|[]]]; discriminate H
                | intros [r [H T]]; injection H as <-; rewrite T in Tk;
                  discriminate Tk]).
  - destruct err; cbn [snd fst];
      (split; [first [ exists []; split; [reflexivity | cbn; lia]
                     | eexists [(_, _)]; split; [reflexivity | cbn; lia] ]|]);
      (split; [first [ reflexivity
                     | intros H; specialize (H _ eq_refl); discriminate H ]|]);
      (split; [ intros H; cbn [In] in H;
                repeat (destruct H as [H|H]; try discriminate H); destruct H
              | intros [r [H _]]; discriminate H ]).
Qed.








(** *** A trailing slash *)

Lemma list_of_append (a b : string) :
  list_ascii_of_string (a ++ b) =
  (list_ascii_of_string a ++ list_ascii_of_string b)%list.
Proof. induction a as [|c a IH]; cbn; [|rewrite IH]; reflexivity. Qed.

Lemma rev_append_char (u : string) (c : ascii) :
  Str.rev (u ++ String c "") = String c (Str.rev u).
Proof.
  unfold Str.rev. rewrite list_of_append. cbn [list_ascii_of_string].
  rewrite rev_app_distr. reflexivity.
Qed.

Lemma rev_rev (u : string) : Str.rev (Str.rev u) = u.
Proof.
  unfold Str.rev. rewrite list_ascii_of_string_of_list_ascii, rev_involutive.
  apply string_of_list_ascii_of_string.
Qed.

Lemma strip_trailing_slash_spec (u : string) :
  Str.strip_trailing_slash (u ++ "/") = u
  /\ ((forall v, u <> v ++ "/") -> Str.strip_trailing_slash u = u).
Proof.
  split.
  - unfold Str.strip_trailing_slash. rewrite rev_append_char, rev_rev. reflexivity.
  - intros N. unfold Str.strip_trailing_slash.
    destruct (Str.rev u) as [|c r] eqn:E; [reflexivity|].
    destruct (Ascii.eqb_spec c "/"%char) as [->|D].
    + exfalso. apply (N (Str.rev r)).
      rewrite <- (rev_rev u), E. rewrite <- (rev_rev r) at 1.
      rewrite <- rev_append_char, rev_rev. reflexivity.
    + destruct c as [[] [] [] [] [] [] [] []]; try reflexivity.
      contradiction D. reflexivity.
Qed.

(** X22: one trailing slash of [BACKEND_URL] or [PUBLIC_URL] does not matter:
    with or without it, the job is posted to [<url>/apply] and the webhook is
    registered as [<url>/tg-webhook]. *)
Theorem trailing_slash_is_ignored (st : settings) (u p : string) :
  (forall v, u <> v ++ "/") ->
  (forall v, p <> v ++ "/") ->
  BACKEND_URL (relay st) = u \/ BACKEND_URL (relay st) = u ++ "/" ->
  PUBLIC_URL st = p \/ PUBLIC_URL st = p ++ "/" ->
  apply_url (relay st) = u ++ "/apply"
  /\ webhookUrl st = p ++ "/tg-webhook".
Proof.
  intros Nu Np Hu Hp. unfold apply_url, webhookUrl.
  destruct (strip_trailing_slash_spec u) as [Su Su'].
  destruct (strip_trailing_slash_spec p) as [Sp Sp'].
  split.
  - destruct Hu as [-> | ->]; [rewrite (Su' Nu) | rewrite Su]; reflexivity.
  - destruct Hp as [-> | ->]; [rewrite (Sp' Np) | rewrite Sp]; reflexivity.
Qed.

Lemma trailing_slash_is_ignored_witness :
  apply_url (relay settings0) = "https://backend.example.com/apply"
  /\ webhookUrl settings0 = "https://bot.example.com/tg-webhook".
Proof.
  apply (trailing_slash_is_ignored
           settings0 "https://backend.example.com" "https://bot.example.com").
  - intros v H. apply (f_equal Str.rev) in H.
    rewrite rev_append_char in H. vm_compute in H. discriminate H.
  - intros v H. apply (f_equal Str.rev) in H.
    rewrite rev_append_char in H. vm_compute in H. discriminate H.
  - left. reflexivity.
  - right. reflexivity.
Defined.
